(** * Address book: field validators, records and the upcoming-birthday query

    A shallow embedding of [classes.py] (classes [Field], [Name], [Phone],
    [Birthday], [Record], [AddressBook]) and of the command handlers of
    [main.py], together with the parts of the
    Python standard library the code relies on: [str.strip], [str.isdigit],
    [re.sub] on a character class, [datetime.strptime], [datetime.strftime],
    [datetime.replace], [datetime.weekday], comparison and subtraction of
    datetimes.

    Python strings are sequences of Unicode code points and are modelled as
    lists of integers.  Raised exceptions are modelled by the left injection
    of a sum type; methods that mutate an object are state transformers that
    return the outcome together with the final state of the object. *)

From Stdlib Require Import ZArith List Bool Lia String Ascii DecimalString.
Import ListNotations.
Open Scope Z_scope.

(** ** Exceptions *)

Definition char := Z.
Definition pystr := list char.

Definition ch (a : ascii) : char := Z.of_N (N_of_ascii a).
Definition str (s : string) : pystr := map ch (list_ascii_of_string s).

(** The only exception class the code raises or catches is [ValueError]. *)
Inductive exn : Type :=
| ValueError (msg : pystr).

Definition result (A : Type) : Type := (exn + A)%type.

Definition raise {A : Type} (e : exn) : result A := inl e.
Definition ret {A : Type} (a : A) : result A := inr a.
Definition bind {A B : Type} (m : result A) (k : A -> result B) : result B :=
  match m with
  | inl e => inl e
  | inr a => k a
  end.

Notation "x <- m ;; k" := (bind m (fun x => k))
  (at level 61, m at next level, right associativity).

(** ** Python [str] *)

Module PyStr.

Definition in_ranges (tbl : list (Z * Z)) (c : char) : bool :=
  existsb (fun r => (fst r <=? c) && (c <=? snd r)) tbl.

(** Code points for which [str.isspace] holds (Unicode 14.0); these are
    the characters removed by [str.strip()] without argument. *)
Definition whitespace_table : list (Z * Z) :=
  [(9, 13); (28, 32); (133, 133); (160, 160); (5760, 5760); (8192, 8202);
   (8232, 8233); (8239, 8239); (8287, 8287); (12288, 12288)].

(** Code points with a decimal digit value (general category Nd,
    Unicode 14.0).  Every range is made of runs of ten consecutive code
    points standing for 0..9.  This is what [\d] matches in a [str]
    pattern, what [str.isdecimal] tests and what [int] converts. *)
Definition decimal_table : list (Z * Z) :=
  [(48, 57); (1632, 1641); (1776, 1785); (1984, 1993); (2406, 2415);
   (2534, 2543); (2662, 2671); (2790, 2799); (2918, 2927); (3046, 3055);
   (3174, 3183); (3302, 3311); (3430, 3439); (3558, 3567); (3664, 3673);
   (3792, 3801); (3872, 3881); (4160, 4169); (4240, 4249); (6112, 6121);
   (6160, 6169); (6470, 6479); (6608, 6617); (6784, 6793); (6800, 6809);
   (6992, 7001); (7088, 7097); (7232, 7241); (7248, 7257); (42528, 42537);
   (43216, 43225); (43264, 43273); (43472, 43481); (43504, 43513);
   (43600, 43609); (44016, 44025); (65296, 65305); (66720, 66729);
   (68912, 68921); (69734, 69743); (69872, 69881); (69942, 69951);
   (70096, 70105); (70384, 70393); (70736, 70745); (70864, 70873);
   (71248, 71257); (71360, 71369); (71472, 71481); (71904, 71913);
   (72016, 72025); (72784, 72793); (73040, 73049); (73120, 73129);
   (92768, 92777); (92864, 92873); (93008, 93017); (120782, 120831);
   (123200, 123209); (123632, 123641); (125264, 125273); (130032, 130041)].

(** Code points for which [str.isdigit] holds (Numeric_Type Digit or
    Decimal, Unicode 14.0): the decimal digits above and also superscript,
    subscript, circled and similar digits. *)
Definition digit_table : list (Z * Z) :=
  [(48, 57); (178, 179); (185, 185); (1632, 1641); (1776, 1785);
   (1984, 1993); (2406, 2415); (2534, 2543); (2662, 2671); (2790, 2799);
   (2918, 2927); (3046, 3055); (3174, 3183); (3302, 3311); (3430, 3439);
   (3558, 3567); (3664, 3673); (3792, 3801); (3872, 3881); (4160, 4169);
   (4240, 4249); (4969, 4977); (6112, 6121); (6160, 6169); (6470, 6479);
   (6608, 6618); (6784, 6793); (6800, 6809); (6992, 7001); (7088, 7097);
   (7232, 7241); (7248, 7257); (8304, 8304); (8308, 8313); (8320, 8329);
   (9312, 9320); (9332, 9340); (9352, 9360); (9450, 9450); (9461, 9469);
   (9471, 9471); (10102, 10110); (10112, 10120); (10122, 10130);
   (42528, 42537); (43216, 43225); (43264, 43273); (43472, 43481);
   (43504, 43513); (43600, 43609); (44016, 44025); (65296, 65305);
   (66720, 66729); (68160, 68163); (68912, 68921); (69216, 69224);
   (69714, 69722); (69734, 69743); (69872, 69881); (69942, 69951);
   (70096, 70105); (70384, 70393); (70736, 70745); (70864, 70873);
   (71248, 71257); (71360, 71369); (71472, 71481); (71904, 71913);
   (72016, 72025); (72784, 72793); (73040, 73049); (73120, 73129);
   (92768, 92777); (92864, 92873); (93008, 93017); (120782, 120831);
   (123200, 123209); (123632, 123641); (125264, 125273); (127232, 127242);
   (130032, 130041)].

Definition isspace_char (c : char) : bool := in_ranges whitespace_table c.
Definition isdecimal_char (c : char) : bool := in_ranges decimal_table c.
Definition isdigit_char (c : char) : bool := in_ranges digit_table c.

(** The digit value of a decimal character: its offset in its run of ten. *)
Definition decimal_value (c : char) : option Z :=
  match find (fun r => (fst r <=? c) && (c <=? snd r)) decimal_table with
  | Some r => Some ((c - fst r) mod 10)
  | None => None
  end.

Definition len (s : pystr) : Z := Z.of_nat (List.length s).

Fixpoint eqb (s t : pystr) : bool :=
  match s, t with
  | [], [] => true
  | c :: s', d :: t' => (c =? d) && eqb s' t'
  | _, _ => false
  end.

Fixpoint dropwhile (p : char -> bool) (s : pystr) : pystr :=
  match s with
  | [] => []
  | c :: s' => if p c then dropwhile p s' else s
  end.

Definition lstrip_by (p : char -> bool) (s : pystr) : pystr := dropwhile p s.
Definition rstrip_by (p : char -> bool) (s : pystr) : pystr :=
  rev (dropwhile p (rev s)).

(** [s.strip()] *)
Definition strip (s : pystr) : pystr :=
  rstrip_by isspace_char (lstrip_by isspace_char s).

(** [s.strip(chars)] *)
Definition strip_chars (chars : pystr) (s : pystr) : pystr :=
  let p := fun c => existsb (Z.eqb c) chars in
  rstrip_by p (lstrip_by p s).

(** [s.isdigit()]: every character is a digit and there is at least one. *)
Definition isdigit (s : pystr) : bool :=
  match s with
  | [] => false
  | _ => forallb isdigit_char s
  end.

(** [int(s)] for a string of decimal characters, surrounded by optional
    whitespace; [None] stands for the [ValueError] of a malformed literal. *)
Definition int (s : pystr) : option Z :=
  match strip s with
  | [] => None
  | t => fold_left
           (fun acc c =>
              match acc, decimal_value c with
              | Some n, Some d => Some (10 * n + d)
              | _, _ => None
              end) t (Some 0)
  end.

End PyStr.

(** ** Python [re]: substitution of the runs of a character class *)

Module PyRe.

(** [re.sub('[cls]+', repl, s)]: every maximal run of characters of the
    class is replaced by [repl]; [in_run] tells that the previous character
    belonged to a run already replaced. *)
Fixpoint sub_runs (cls : char -> bool) (repl : pystr) (in_run : bool)
         (s : pystr) : pystr :=
  match s with
  | [] => []
  | c :: s' =>
      if cls c
      then (if in_run then [] else repl) ++ sub_runs cls repl true s'
      else c :: sub_runs cls repl false s'
  end.

Definition sub_class_plus (cls : char -> bool) (repl s : pystr) : pystr :=
  sub_runs cls repl false s.

End PyRe.

(** ** Python [datetime] *)

(** [strftime] defers to the C library.  Its [%Y] is the one conversion used
    here whose output differs between platforms: some C libraries (glibc)
    print the year without padding, so that year 990 gives three characters,
    others pad it to four digits.  The development is parametric in that
    choice. *)
Class CLib : Type := { strftime_pads_year : bool }.

Module PyDatetime.

Record datetime : Type := mk_datetime {
  year : Z; month : Z; day : Z;
  hour : Z; minute : Z; second : Z; microsecond : Z
}.

Record timedelta : Type := mk_timedelta {
  days : Z; seconds : Z; microseconds : Z
}.

Definition MINYEAR : Z := 1.
Definition MAXYEAR : Z := 9999.

Definition _is_leap (y : Z) : bool :=
  (y mod 4 =? 0) && (negb (y mod 100 =? 0) || (y mod 400 =? 0)).

Definition _DAYS_IN_MONTH : list Z :=
  [-1; 31; 28; 31; 30; 31; 30; 31; 31; 30; 31; 30; 31].

Definition _DAYS_BEFORE_MONTH : list Z :=
  [-1; 0; 31; 59; 90; 120; 151; 181; 212; 243; 273; 304; 334].

Definition _days_in_month (y m : Z) : Z :=
  if (m =? 2) && _is_leap y then 29
  else nth (Z.to_nat m) _DAYS_IN_MONTH 0.

Definition _days_before_year (y : Z) : Z :=
  let y := y - 1 in y * 365 + y / 4 - y / 100 + y / 400.

Definition _days_before_month (y m : Z) : Z :=
  nth (Z.to_nat m) _DAYS_BEFORE_MONTH 0
  + (if (m >? 2) && _is_leap y then 1 else 0).

Definition _ymd2ord (y m d : Z) : Z :=
  _days_before_year y + _days_before_month y m + d.

Definition between (lo x hi : Z) : bool := (lo <=? x) && (x <=? hi).

Definition _check_date_fields (y m d : Z) : result unit :=
  if negb (between MINYEAR y MAXYEAR)
  then raise (ValueError (str "year is out of range"))
  else if negb (between 1 m 12)
  then raise (ValueError (str "month must be in 1..12"))
  else if negb (between 1 d (_days_in_month y m))
  then raise (ValueError (str "day is out of range for month"))
  else ret tt.

Definition _check_time_fields (H M S us : Z) : result unit :=
  if negb (between 0 H 23)
  then raise (ValueError (str "hour must be in 0..23"))
  else if negb (between 0 M 59)
  then raise (ValueError (str "minute must be in 0..59"))
  else if negb (between 0 S 59)
  then raise (ValueError (str "second must be in 0..59"))
  else if negb (between 0 us 999999)
  then raise (ValueError (str "microsecond must be in 0..999999"))
  else ret tt.

(** The constructor [datetime(year, month, day, hour, minute, second,
    microsecond)]. *)
Definition new (y m d H M S us : Z) : result datetime :=
  _ <- _check_date_fields y m d ;;
  _ <- _check_time_fields H M S us ;;
  ret (mk_datetime y m d H M S us).

Definition or_else (o : option Z) (dflt : Z) : Z :=
  match o with Some v => v | None => dflt end.

(** [self.replace(year=..., month=..., day=...)]: a new object built by the
    constructor, hence validated again. *)
Definition replace (self : datetime) (y m d : option Z) : result datetime :=
  new (or_else y (year self)) (or_else m (month self)) (or_else d (day self))
      (hour self) (minute self) (second self) (microsecond self).

Definition toordinal (self : datetime) : Z :=
  _ymd2ord (year self) (month self) (day self).

(** Monday is 0, Sunday is 6. *)
Definition weekday (self : datetime) : Z := (toordinal self + 6) mod 7.

Definition fields (self : datetime) : list Z :=
  [year self; month self; day self;
   hour self; minute self; second self; microsecond self].

Fixpoint _cmp (a b : list Z) : comparison :=
  match a, b with
  | x :: a', y :: b' =>
      match x ?= y with
      | Eq => _cmp a' b'
      | c => c
      end
  | [], [] => Eq
  | [], _ :: _ => Lt
  | _ :: _, [] => Gt
  end.

(** [self < other] on naive datetimes. *)
Definition lt (self other : datetime) : bool :=
  match _cmp (fields self) (fields other) with
  | Lt => true
  | _ => false
  end.

(** The normalising constructor [timedelta(days, seconds, microseconds)]:
    [0 <= microseconds < 10^6] and [0 <= seconds < 86400], the carries
    going into [days]. *)
Definition timedelta_new (d s us : Z) : timedelta :=
  let s1 := s + us / 1000000 in
  mk_timedelta (d + s1 / 86400) (s1 mod 86400) (us mod 1000000).

(** [self - other] *)
Definition sub (self other : datetime) : timedelta :=
  let secs1 := second self + minute self * 60 + hour self * 3600 in
  let secs2 := second other + minute other * 60 + hour other * 3600 in
  timedelta_new (toordinal self - toordinal other) (secs1 - secs2)
                (microsecond self - microsecond other).

(** *** Format strings *)

Inductive directive : Type := dir_Y | dir_m | dir_d.

Inductive item : Type :=
| Lit (c : char)
| Dir (d : directive)
| Unsupported (c : option char).

Definition directive_of (c : char) : option directive :=
  if c =? ch "Y" then Some dir_Y
  else if c =? ch "m" then Some dir_m
  else if c =? ch "d" then Some dir_d
  else None.

(** A format string split into literal characters and directives.  Only
    [%Y], [%m] and [%d] occur in the program; any other use of [%] is kept
    as [Unsupported]. *)
Fixpoint parse_format (after_percent : bool) (format : pystr) : list item :=
  match format with
  | [] => if after_percent then [Unsupported None] else []
  | c :: rest =>
      if after_percent then
        match directive_of c with
        | Some d => Dir d :: parse_format false rest
        | None => Unsupported (Some c) :: parse_format false rest
        end
      else if c =? ch "%" then parse_format true rest
      else Lit c :: parse_format false rest
  end.

(** *** [strptime] *)

Definition exactly (a : ascii) (c : char) : bool := c =? ch a.
Definition range (a b : ascii) (c : char) : bool := between (ch a) c (ch b).

(** The regular expression of each directive, as a list of alternatives in
    priority order, each alternative a sequence of character classes:
    [%Y] is [\d\d\d\d], [%m] is [1[0-2]|0[1-9]|[1-9]] and
    [%d] is [3[0-1]|[1-2]\d|0[1-9]|[1-9]| [1-9]]. *)
Definition regex_of (d : directive) : list (list (char -> bool)) :=
  match d with
  | dir_Y => [[PyStr.isdecimal_char; PyStr.isdecimal_char;
               PyStr.isdecimal_char; PyStr.isdecimal_char]]
  | dir_m => [[exactly "1"; range "0" "2"]; [exactly "0"; range "1" "9"];
              [range "1" "9"]]
  | dir_d => [[exactly "3"; range "0" "1"]; [range "1" "2"; PyStr.isdecimal_char];
              [exactly "0"; range "1" "9"]; [range "1" "9"];
              [exactly " "; range "1" "9"]]
  end.

(** Match a sequence of character classes at the start of [s]: the matched
    text and what follows it. *)
Fixpoint match_seq (classes : list (char -> bool)) (s : pystr)
  : option (pystr * pystr) :=
  match classes with
  | [] => Some ([], s)
  | p :: classes' =>
      match s with
      | c :: s' =>
          if p c then
            match match_seq classes' s' with
            | Some (txt, rest) => Some (c :: txt, rest)
            | None => None
            end
          else None
      | [] => None
      end
  end.

(** All the alternatives that match at the start of [s], in order. *)
Fixpoint match_alts (alts : list (list (char -> bool))) (s : pystr)
  : list (pystr * pystr) :=
  match alts with
  | [] => []
  | a :: alts' =>
      match match_seq a s with
      | Some r => r :: match_alts alts' s
      | None => match_alts alts' s
      end
  end.

(** The named groups of a match ([found.groupdict()]). *)
Record groups : Type := mk_groups {
  group_Y : option pystr; group_m : option pystr; group_d : option pystr
}.

Definition no_groups : groups := mk_groups None None None.

Definition set_group (d : directive) (txt : pystr) (g : groups) : groups :=
  match d with
  | dir_Y => mk_groups (Some txt) (group_m g) (group_d g)
  | dir_m => mk_groups (group_Y g) (Some txt) (group_d g)
  | dir_d => mk_groups (group_Y g) (group_m g) (Some txt)
  end.

Fixpoint first_some {A B : Type} (f : A -> option B) (l : list A) : option B :=
  match l with
  | [] => None
  | a :: l' =>
      match f a with
      | Some b => Some b
      | None => first_some f l'
      end
  end.

(** [format_regex.match(data_string)]: a match anchored at the start only,
    found by backtracking over the alternatives of each directive in
    priority order.  [None] when the format holds an unsupported
    directive. *)
Fixpoint re_match (items : list item) (s : pystr) (g : groups)
  : option (groups * pystr) :=
  match items with
  | [] => Some (g, s)
  | Lit c :: items' =>
      match s with
      | c' :: s' => if c =? c' then re_match items' s' g else None
      | [] => None
      end
  | Dir d :: items' =>
      first_some (fun r => re_match items' (snd r) (set_group d (fst r) g))
                 (match_alts (regex_of d) s)
  | Unsupported _ :: _ => None
  end.

Definition group_int (o : option pystr) (dflt : Z) : result Z :=
  match o with
  | None => ret dflt
  | Some txt =>
      match PyStr.int txt with
      | Some n => ret n
      | None => raise (ValueError (str "invalid literal for int()"))
      end
  end.

(** [datetime.strptime(data_string, format)].  The text of the messages is
    abridged: every handler of the program discards it. *)
Definition strptime (data_string format : pystr) : result datetime :=
  match re_match (parse_format false format) data_string no_groups with
  | None => raise (ValueError (str "time data does not match format"))
  | Some (found, rest) =>
      match rest with
      | _ :: _ => raise (ValueError (str "unconverted data remains"))
      | [] =>
          y <- group_int (group_Y found) 1900 ;;
          m <- group_int (group_m found) 1 ;;
          d <- group_int (group_d found) 1 ;;
          new y m d 0 0 0 0
      end
  end.

(** *** [strftime] *)

Definition digit (n : Z) : char := ch "0" + n.

(** [%02d] of a number in 0..99 and [%04d] of a number in 0..9999, the
    ranges of the fields of a [datetime]. *)
Definition dec2 (n : Z) : pystr := [digit (n / 10); digit (n mod 10)].
Definition dec4 (n : Z) : pystr :=
  [digit (n / 1000); digit (n / 100 mod 10); digit (n / 10 mod 10);
   digit (n mod 10)].

(** The decimal writing of a number in 0..9999, without leading zeros. *)
Definition dec (n : Z) : pystr :=
  match PyStr.dropwhile (exactly "0") (dec4 n) with
  | [] => [digit 0]
  | s => s
  end.

Section Strftime.
Context {libc : CLib}.

Definition format_directive (d : directive) (self : datetime) : pystr :=
  match d with
  | dir_Y => if strftime_pads_year then dec4 (year self) else dec (year self)
  | dir_m => dec2 (month self)
  | dir_d => dec2 (day self)
  end.

Definition format_item (self : datetime) (i : item) : pystr :=
  match i with
  | Lit c => [c]
  | Dir d => format_directive d self
  | Unsupported (Some c) => [ch "%"; c]
  | Unsupported None => [ch "%"]
  end.

(** [self.strftime(format)] *)
Definition strftime (self : datetime) (format : pystr) : pystr :=
  flat_map (format_item self) (parse_format false format).

End Strftime.

End PyDatetime.


(** ** [classes.py] *)

Import PyDatetime.

(** [Field]: an object with one attribute, [value].  The subclasses [Name],
    [Phone] and [Birthday] add nothing but a validating constructor, so
    their instances are values of this type. *)
Module Field.

Record t : Type := mk { value : pystr }.

Definition __str__ (self : t) : pystr := value self.

End Field.

Module Name.

Definition __init__ (value : pystr) : result Field.t :=
  let name := PyStr.strip value in
  match name with
  | [] => raise (ValueError
                   (str "Contact name is mandatory and cannot be empty."))
  | _ => ret (Field.mk name)
  end.

End Name.

Module Phone.

Definition __init__ (value : pystr) : result Field.t :=
  let phone_str := PyStr.strip value in
  if negb (PyStr.isdigit phone_str && (PyStr.len phone_str =? 10))
  then raise (ValueError (str "Phone number must contain exactly 10 digits."))
  else ret (Field.mk phone_str).

End Phone.

Module Birthday.
Section WithCLib.
Context {libc : CLib}.

(** The character class of the pattern: space, [-], [/], [.], backslash,
    comma, tab, newline and the three kinds of brackets. *)
Definition delimiters : pystr :=
  [ch " "; ch "-"; ch "/"; ch "."; 92; ch ","; 9; 10;
   ch "("; ch ")"; ch "["; ch "]"; ch "{"; ch "}"].

Definition is_delimiter (c : char) : bool := existsb (Z.eqb c) delimiters.

Definition formats_to_try : list pystr :=
  [str "%Y-%m-%d"; str "%d-%m-%Y"; str "%m-%d-%Y"].

(** The loop over [formats_to_try]: the first format that parses wins. *)
Fixpoint try_formats (standardized : pystr) (formats : list pystr)
  : result pystr :=
  match formats with
  | [] => raise (ValueError (str "Unable to parse date format"))
  | fmt :: formats' =>
      match strptime standardized fmt with
      | inr parsed_date => ret (strftime parsed_date (str "%Y-%m-%d"))
      | inl (ValueError _) => try_formats standardized formats'
      end
  end.

Definition _standardize_date_format (date_string : pystr) : result pystr :=
  let standardized :=
    PyStr.strip_chars (str "-")
      (PyRe.sub_class_plus is_delimiter (str "-") date_string) in
  try_formats standardized formats_to_try.

Definition __init__ (value : pystr) : result Field.t :=
  birthday_str <- _standardize_date_format (PyStr.strip value) ;;
  match strptime birthday_str (str "%Y-%m-%d") with
  | inr _ => ret (Field.mk birthday_str)
  | inl (ValueError _) =>
      raise (ValueError (str "Invalid birthday format. Use YYYY-MM-DD, YYYY.MM.DD, DD.MM.YYYY, or DD-MM-YYYY"))
  end.

Definition display_format (self : Field.t) : pystr :=
  match strptime (Field.value self) (str "%Y-%m-%d") with
  | inr date_obj => strftime date_obj (str "%d.%m.%Y")
  | inl (ValueError _) => Field.value self
  end.

End WithCLib.
End Birthday.

(** [Record]: one contact.  A method that mutates [self] takes the state of
    the object and returns the outcome of the call with the state the object
    is left in; a raised exception leaves whatever was assigned before it. *)
Module Record.
Section WithCLib.
Context {libc : CLib}.

Record t : Type := mk {
  name : Field.t;
  phones : list Field.t;
  birthday : option Field.t
}.

Definition __init__ (name : pystr) : result t :=
  n <- Name.__init__ name ;;
  ret (mk n [] None).

Fixpoint join (sep : pystr) (l : list pystr) : pystr :=
  match l with
  | [] => []
  | [s] => s
  | s :: l' => s ++ sep ++ join sep l'
  end.

Definition __str__ (self : t) : pystr :=
  let phones_str := join (str "; ") (map Field.value (phones self)) in
  let birthday_str :=
    match birthday self with
    | Some b => str ", birthday: " ++ Birthday.display_format b
    | None => []
    end in
  str "Contact name: " ++ Field.value (name self) ++ str ", phones: "
  ++ phones_str ++ birthday_str.

Definition add_phone (phone : pystr) (self : t) : result unit * t :=
  match Phone.__init__ phone with
  | inl e => (inl e, self)
  | inr p => (inr tt, mk (name self) (phones self ++ [p]) (birthday self))
  end.

Definition add_birthday (birthday : pystr) (self : t) : result unit * t :=
  match Birthday.__init__ birthday with
  | inl e => (inl e, self)
  | inr b => (inr tt, mk (name self) (phones self) (Some b))
  end.

(** The position in [self.phones] of the first phone whose value is [phone];
    the position stands for the reference to the object that the method
    returns, [None] for Python's [None]. *)
Fixpoint find_from (phone : pystr) (l : list Field.t) (i : nat) : option nat :=
  match l with
  | [] => None
  | p :: l' =>
      if PyStr.eqb (Field.value p) phone then Some i
      else find_from phone l' (S i)
  end.

Definition find_phone (phone : pystr) (self : t) : option nat :=
  find_from phone (phones self) 0.

(** [p.value = v] for the phone object at position [i]. *)
Fixpoint set_value (i : nat) (v : pystr) (l : list Field.t) : list Field.t :=
  match l, i with
  | [], _ => []
  | _ :: l', O => Field.mk v :: l'
  | p :: l', S j => p :: set_value j v l'
  end.

Definition edit_phone (old_phone new_phone : pystr) (self : t)
  : result unit * t :=
  match find_phone old_phone self with
  | Some phone_to_edit =>
      (inr tt,
       mk (name self) (set_value phone_to_edit new_phone (phones self))
          (birthday self))
  | None =>
      (inl (ValueError (str "Phone number " ++ old_phone ++ str " not found.")),
       self)
  end.

Definition remove_phone (phone : pystr) (self : t) : t :=
  mk (name self)
     (filter (fun p => negb (PyStr.eqb (Field.value p) phone)) (phones self))
     (birthday self).

End WithCLib.
End Record.

(** [AddressBook]: [self.data], a dictionary from names to records, as the
    list of its items in insertion order. *)
Module AddressBook.
Section WithCLib.
Context {libc : CLib}.

Definition t : Type := list (pystr * Record.t).

(** [data[key] = v]: an existing key keeps its place, a new one goes last. *)
Fixpoint setitem (key : pystr) (v : Record.t) (data : t) : t :=
  match data with
  | [] => [(key, v)]
  | (k, w) :: data' =>
      if PyStr.eqb k key then (k, v) :: data'
      else (k, w) :: setitem key v data'
  end.

Definition add_record (record : Record.t) (self : t) : t :=
  setitem (Field.value (Record.name record)) record self.

Fixpoint find (name : pystr) (self : t) : option Record.t :=
  match self with
  | [] => None
  | (k, w) :: data' => if PyStr.eqb k name then Some w else find name data'
  end.

Definition delete (name : pystr) (self : t) : t :=
  filter (fun kv => negb (PyStr.eqb (fst kv) name)) self.

(** One element of the list returned by [get_upcoming_birthdays]: the
    dictionary with the keys ["name"], ["birthday"] and ["days_until"]. *)
Record entry : Type := mk_entry {
  name : pystr;
  birthday : pystr;
  days_until : Z
}.

(** Lines 124-128: the birthday in the year of [today], or in the year after
    when that date is before [today]. *)
Definition this_or_next_year (today birthday : datetime) : result datetime :=
  next_birthday <- replace birthday (Some (year today)) None None ;;
  if lt next_birthday today
  then replace next_birthday (Some (year today + 1)) None None
  else ret next_birthday.

(** Lines 131-133: a Saturday or Sunday is moved by writing
    [day + days_to_add] into the day field. *)
Definition adjust_to_monday (next_birthday : datetime) : result datetime :=
  if existsb (Z.eqb (weekday next_birthday)) [5; 6]
  then
    let days_to_add := 7 - weekday next_birthday in
    replace next_birthday None None (Some (day next_birthday + days_to_add))
  else ret next_birthday.

(** The body of the [try] statement for one item: the entry to append, if
    any, or the exception raised. *)
Definition try_body (today : datetime) (name : pystr) (record : Record.t)
           (record_birthday : Field.t) : result (option entry) :=
  birthday <- strptime (Field.value record_birthday) (str "%Y-%m-%d") ;;
  next_birthday <- this_or_next_year today birthday ;;
  next_birthday <- adjust_to_monday next_birthday ;;
  let delta := days (sub next_birthday today) in
  if (0 <=? delta) && (delta <=? 7)
  then ret (Some (mk_entry name (Birthday.display_format record_birthday) delta))
  else ret None.

(** One iteration of the [for] loop over [self.data.items()]. *)
Definition loop_body (today : datetime) (upcoming_birthdays : list entry)
           (item : pystr * Record.t) : list entry :=
  let (name, record) := item in
  match Record.birthday record with
  | Some record_birthday =>
      match try_body today name record record_birthday with
      | inr (Some e) => upcoming_birthdays ++ [e]
      | inr None => upcoming_birthdays
      | inl (ValueError _) => upcoming_birthdays
      end
  | None => upcoming_birthdays
  end.

(** [get_upcoming_birthdays(self)].  The method has no parameter besides
    [self]: [today] is the value that [datetime.today()] returns when line
    115 runs, the reading of the system clock, date and time of day. *)
Definition get_upcoming_birthdays (today : datetime) (self : t) : list entry :=
  fold_left (loop_body today) self [].

End WithCLib.
End AddressBook.


(** ** Predicates used in the statements *)

Definition ascii_digit (c : char) : bool := between (ch "0") c (ch "9").

Definition is_ascii (c : char) : bool := between 0 c 127.

(** The invariant of a phone: ten characters, all of them ASCII digits. *)
Definition phone_invariant (p : Field.t) : bool :=
  forallb ascii_digit (Field.value p) && (PyStr.len (Field.value p) =? 10).

(** The shape [YYYY-MM-DD]: four ASCII digits, a dash, two ASCII digits, a
    dash and two ASCII digits, ten characters in all. *)
Definition canonical_shape (s : pystr) : bool :=
  match s with
  | [y1; y2; y3; y4; h1; m1; m2; h2; d1; d2] =>
      forallb ascii_digit [y1; y2; y3; y4; m1; m2; d1; d2]
      && (h1 =? ch "-") && (h2 =? ch "-")
  | _ => false
  end.

(** The renderings [YYYY-MM-DD] and [DD.MM.YYYY] of a date. *)
Definition iso_form (y m d : Z) : pystr :=
  dec4 y ++ [ch "-"] ++ dec2 m ++ [ch "-"] ++ dec2 d.

Definition display_form (y m d : Z) : pystr :=
  dec2 d ++ [ch "."] ++ dec2 m ++ [ch "."] ++ dec4 y.

Definition valid_date (y m d : Z) : Prop :=
  1 <= y <= 9999 /\ 1 <= m <= 12 /\ 1 <= d <= _days_in_month y m.

(** The items of the format ["%Y-%m-%d"]. *)
Definition items_Ymd : list item :=
  [Dir dir_Y; Lit (ch "-"); Dir dir_m; Lit (ch "-"); Dir dir_d].

(** A character that no step of the normalisation touches. *)
Definition plain (c : char) : Prop :=
  PyStr.isspace_char c = false /\ Birthday.is_delimiter c = false
  /\ existsb (Z.eqb c) (str "-") = false.

(** Clock readings: the time of day is within its bounds; it is 00:00:00
    sharp; two readings are of the same day. *)
Definition valid_time (dt : datetime) : Prop :=
  0 <= hour dt <= 23 /\ 0 <= minute dt <= 59 /\ 0 <= second dt <= 59
  /\ 0 <= microsecond dt <= 999999.

Definition at_midnight (dt : datetime) : bool :=
  (hour dt =? 0) && (minute dt =? 0) && (second dt =? 0)
  && (microsecond dt =? 0).

Definition same_date (a b : datetime) : Prop :=
  year a = year b /\ month a = month b /\ day a = day b.

(** The two C libraries. *)
Definition glibc : CLib := {| strftime_pads_year := false |}.
Definition padding_libc : CLib := {| strftime_pads_year := true |}.

(** A clock reading at midnight. *)
Definition midnight (y m d : Z) : datetime := mk_datetime y m d 0 0 0 0.

(** A datetime without time of day, as [strptime] returns them here. *)
Definition midnight_form (dt : datetime) : Prop :=
  dt = midnight (year dt) (month dt) (day dt).

(** Sequences of method calls on a record, [None] as soon as one raises. *)
Definition created (n : string) : option Record.t :=
  match Record.__init__ (str n) with
  | inr r => Some r
  | inl _ => None
  end.

Definition call (method : Record.t -> result unit * Record.t)
           (o : option Record.t) : option Record.t :=
  match o with
  | Some r =>
      match method r with
      | (inr _, r') => Some r'
      | (inl _, _) => None
      end
  | None => None
  end.

(** A contact with a name and a birthday, built through the methods of
    [Record]. *)
Definition new_contact {libc : CLib} (n b : string) : option Record.t :=
  call (Record.add_birthday (str b)) (created n).

(** Sample data: the record of John in the demonstration at the end of
    [classes.py], as the calls of the demonstration build it and as a value;
    the state of a record that was given a name and a birthday in canonical
    form; a clock reading; a phone number in Arabic-Indic digits. *)
Definition john : option Record.t :=
  call (Record.add_phone (str "5555555555"))
       (call (Record.add_phone (str "1234567890")) (created "John")).

Definition john_1990 : Record.t :=
  Record.mk (Field.mk (str "John"))
            [Field.mk (str "1234567890"); Field.mk (str "5555555555")]
            (Some (Field.mk (str "1990-06-15"))).

Definition contact (n b : string) : Record.t :=
  Record.mk (Field.mk (str n)) [] (Some (Field.mk (str b))).

Definition monday_25_nov_2024_9h : datetime := mk_datetime 2024 11 25 9 0 0 0.

Definition arabic_indic_phone : pystr :=
  [1633; 1634; 1635; 1636; 1637; 1638; 1639; 1640; 1641; 1632].

(** ** More of Python's built-ins, for [main.py] *)

Module PyBuiltins.

(** [s.split()]: the words of [s], separated by runs of whitespace; [cur]
    holds the characters of the current word, last one first. *)
Fixpoint split_from (cur : pystr) (s : pystr) : list pystr :=
  match s with
  | [] =>
      match cur with
      | [] => []
      | _ => [rev cur]
      end
  | c :: s' =>
      if PyStr.isspace_char c then
        match cur with
        | [] => split_from [] s'
        | _ => rev cur :: split_from [] s'
        end
      else split_from (c :: cur) s'
  end.

Definition split (s : pystr) : list pystr := split_from [] s.

(** [str(n)] for an integer. *)
Definition str_of_int (n : Z) : pystr :=
  str (NilZero.string_of_int (Z.to_int n)).

End PyBuiltins.

(** ** [main.py] *)

(** The handlers of the commands.  A handler that changes the book is a
    state transformer on the book; the records are objects that live in the
    book, each under one key, so that a method called on a record found in
    the book changes the book. *)
Module Main.

(** The decorator [input_error]: the message of a [ValueError] becomes the
    returned string; what the body did to the book before raising stays. *)
Definition input_error {S : Type} (r : result pystr * S) : pystr * S :=
  match r with
  | (inr message, s) => (message, s)
  | (inl (ValueError e), s) => (str "ValueError: " ++ e, s)
  end.

Definition input_error_pure (r : result pystr) : pystr :=
  fst (input_error (r, tt)).

(** [record.method(...)] for the record object stored under [key], whose
    state is [record]: the outcome, and the book with the new state of the
    object. *)
Definition call_on {A : Type} (key : pystr) (record : Record.t)
           (method : Record.t -> result A * Record.t) (book : AddressBook.t)
  : result A * AddressBook.t :=
  let (res, record') := method record in
  (res, AddressBook.setitem key record' book).

Section WithCLib.
Context {libc : CLib}.

(** [parse_input]; [lower] stands for [str.lower], whose Unicode tables are
    not modelled.  The unpacking [cmd, *args = ...] raises [ValueError] when
    there is no word. *)
Definition parse_input (lower : pystr -> pystr) (user_input : pystr)
  : result (pystr * list pystr) :=
  match PyBuiltins.split user_input with
  | [] => raise (ValueError
                   (str "not enough values to unpack (expected at least 1, got 0)"))
  | cmd :: args => ret (lower (PyStr.strip cmd), args)
  end.

Definition add_contact_body (args : list pystr) (book : AddressBook.t)
  : result pystr * AddressBook.t :=
  match args with
  | name :: phone :: _ =>
      match AddressBook.find name book with
      | Some record =>
          match phone with
          | [] => (inr (str "Contact updated."), book)
          | _ :: _ =>
              match call_on name record (Record.add_phone phone) book with
              | (inl e, book') => (inl e, book')
              | (inr _, book') => (inr (str "Contact updated."), book')
              end
          end
      | None =>
          match Record.__init__ name with
          | inl e => (inl e, book)
          | inr record =>
              let book1 := AddressBook.add_record record book in
              match phone with
              | [] => (inr (str "Contact added."), book1)
              | _ :: _ =>
                  match call_on (Field.value (Record.name record)) record
                                (Record.add_phone phone) book1 with
                  | (inl e, book') => (inl e, book')
                  | (inr _, book') => (inr (str "Contact added."), book')
                  end
              end
          end
      end
  | _ => (inl (ValueError (str "Please provide name and phone number.")), book)
  end.

Definition add_contact (args : list pystr) (book : AddressBook.t)
  : pystr * AddressBook.t :=
  input_error (add_contact_body args book).

Definition change_contact_body (args : list pystr) (book : AddressBook.t)
  : result pystr * AddressBook.t :=
  match args with
  | name :: old_phone :: new_phone :: _ =>
      match AddressBook.find name book with
      | None =>
          (inl (ValueError (str "Contact " ++ name ++ str " not found.")), book)
      | Some record =>
          match call_on name record (Record.edit_phone old_phone new_phone)
                        book with
          | (inl e, book') => (inl e, book')
          | (inr _, book') =>
              (inr (str "Phone number for " ++ name ++ str " changed from "
                        ++ old_phone ++ str " to " ++ new_phone ++ str "."),
               book')
          end
      end
  | _ => (inl (ValueError (str "Please provide name, old phone and new phone.")),
          book)
  end.

Definition change_contact (args : list pystr) (book : AddressBook.t)
  : pystr * AddressBook.t :=
  input_error (change_contact_body args book).

Definition show_phone (args : list pystr) (book : AddressBook.t) : pystr :=
  input_error_pure
    match args with
    | [] => raise (ValueError (str "Please provide contact name."))
    | name :: _ =>
        match AddressBook.find name book with
        | None => raise (ValueError
                           (str "Contact " ++ name ++ str " not found."))
        | Some record =>
            match Record.phones record with
            | [] => ret (str "Contact " ++ name ++ str " has no phone numbers.")
            | _ :: _ =>
                let phones :=
                  Record.join (str "; ")
                              (map Field.value (Record.phones record)) in
                ret (str "Phone numbers for " ++ name ++ str ": " ++ phones)
            end
        end
    end.

Definition add_birthday_body (args : list pystr) (book : AddressBook.t)
  : result pystr * AddressBook.t :=
  match args with
  | name :: birthday :: _ =>
      match AddressBook.find name book with
      | None =>
          (inl (ValueError (str "Contact " ++ name ++ str " not found.")), book)
      | Some record =>
          match call_on name record (Record.add_birthday birthday) book with
          | (inl e, book') => (inl e, book')
          | (inr _, book') =>
              (inr (str "Birthday " ++ birthday ++ str " added for contact "
                        ++ name ++ str "."),
               book')
          end
      end
  | _ => (inl (ValueError (str "Please provide name and birthday date.")), book)
  end.

Definition add_birthday (args : list pystr) (book : AddressBook.t)
  : pystr * AddressBook.t :=
  input_error (add_birthday_body args book).

Definition show_birthday (args : list pystr) (book : AddressBook.t) : pystr :=
  input_error_pure
    match args with
    | [] => raise (ValueError (str "Please provide contact name."))
    | name :: _ =>
        match AddressBook.find name book with
        | None => raise (ValueError
                           (str "Contact " ++ name ++ str " not found."))
        | Some record =>
            match Record.birthday record with
            | None => ret (str "Contact " ++ name ++ str " has no birthday set.")
            | Some b =>
                ret (str "Birthday for " ++ name ++ str ": "
                         ++ Birthday.display_format b)
            end
        end
    end.

(** The date shown for one entry of the query: the handler tries to read the
    entry's date as YYYY-MM-DD and falls back on the text it was given. *)
Definition display_date (contact : AddressBook.entry) : pystr :=
  match strptime (AddressBook.birthday contact) (str "%Y-%m-%d") with
  | inr date_obj => strftime date_obj (str "%d.%m.%Y")
  | inl (ValueError _) => AddressBook.birthday contact
  end.

(** The bullet of the list, U+2022. *)
Definition bullet : char := 8226.

Definition birthday_line (contact : AddressBook.entry) : pystr :=
  [bullet; ch " "] ++ AddressBook.name contact ++ str ": "
  ++ display_date contact ++ str " (in "
  ++ PyBuiltins.str_of_int (AddressBook.days_until contact) ++ str " days)"
  ++ [10].

(** [show_birthdays]; [today] is the reading of the clock that the query
    takes when it is called. *)
Definition show_birthdays (today : datetime) (args : list pystr)
           (book : AddressBook.t) : pystr :=
  input_error_pure
    match AddressBook.get_upcoming_birthdays today book with
    | [] => ret (str "No birthdays in the next week.")
    | upcoming =>
        let result :=
          fold_left (fun result contact => result ++ birthday_line contact)
                    upcoming (str "Upcoming birthdays:" ++ [10]) in
        ret (PyStr.strip result)
    end.

End WithCLib.
End Main.

(** ** More predicates used in the statements *)

(** The book as a dictionary keeps: no key twice, and every record under the
    key that is its name. *)
Definition well_formed (book : AddressBook.t) : Prop :=
  NoDup (map fst book)
  /\ Forall (fun kv => fst kv = Field.value (Record.name (snd kv))) book.

(** What the constructor of [Phone] checks, on a stored value. *)
Definition phone_ok (p : Field.t) : bool :=
  PyStr.isdigit (Field.value p) && (PyStr.len (Field.value p) =? 10).

(** A string that [str.strip] leaves as it is. *)
Definition stripped (s : pystr) : Prop := PyStr.strip s = s.

(** The two messages with which the constructor of [Birthday] fails. *)
Definition unable_to_parse : exn :=
  ValueError (str "Unable to parse date format").

Definition invalid_birthday_format : exn :=
  ValueError (str "Invalid birthday format. Use YYYY-MM-DD, YYYY.MM.DD, DD.MM.YYYY, or DD-MM-YYYY").

(** A word: not empty, and without whitespace. *)
Definition word (w : pystr) : Prop :=
  w <> [] /\ forallb (fun c => negb (PyStr.isspace_char c)) w = true.

(** ** The system clock *)

(** The readings that the successive calls of [datetime.today()] return, and
    the number of readings taken so far. *)
Record Clock : Type := mk_clock { readings : nat -> datetime; taken : nat }.

Definition datetime_today (c : Clock) : datetime * Clock :=
  (readings c (taken c), mk_clock (readings c) (S (taken c))).

(** A call of the method [get_upcoming_birthdays(self)]: its only parameter
    is the book; line 115 reads the clock, once, before the loop, and the
    rest of the body uses that reading. *)
Definition get_upcoming_birthdays_call {libc : CLib} (self : AddressBook.t)
           (c : Clock) : list AddressBook.entry * Clock :=
  let (today, c') := datetime_today c in
  (AddressBook.get_upcoming_birthdays today self, c').

(** Two clocks for the examples: one stopped at 10:00 on 10 June 2024, one
    at the last microsecond of that day, three readings already taken. *)
Definition clock_10h : Clock :=
  mk_clock (fun _ => mk_datetime 2024 6 10 10 0 0 0) 0.

Definition clock_end_of_day : Clock :=
  mk_clock (fun _ => mk_datetime 2024 6 10 23 59 59 999999) 3.

(** * Properties *)

(** ** Results of the constructor of [datetime] *)

Lemma between_spec (lo x hi : Z) :
  between lo x hi = true <-> lo <= x <= hi.
Proof.
  unfold between. rewrite andb_true_iff, !Z.leb_le. tauto.
Qed.

Lemma new_inr (y m d H M S us : Z) (dt : datetime) :
  new y m d H M S us = inr dt ->
  valid_date y m d /\ 0 <= H <= 23 /\ 0 <= M <= 59 /\ 0 <= S <= 59
  /\ 0 <= us <= 999999 /\ dt = mk_datetime y m d H M S us.
Proof.
  unfold new, _check_date_fields, _check_time_fields, valid_date, MINYEAR,
    MAXYEAR, bind, ret, raise.
  destruct (between 1 y 9999) eqn:Ey; simpl; [|discriminate].
  destruct (between 1 m 12) eqn:Em; simpl; [|discriminate].
  destruct (between 1 d (_days_in_month y m)) eqn:Ed; simpl; [|discriminate].
  destruct (between 0 H 23) eqn:EH; simpl; [|discriminate].
  destruct (between 0 M 59) eqn:EM; simpl; [|discriminate].
  destruct (between 0 S 59) eqn:ES; simpl; [|discriminate].
  destruct (between 0 us 999999) eqn:Eu; simpl; [|discriminate].
  apply between_spec in Ey, Em, Ed, EH, EM, ES, Eu.
  intros [= <-]. repeat split; lia.
Qed.

Lemma new_date_ok (y m d : Z) :
  valid_date y m d -> new y m d 0 0 0 0 = inr (midnight y m d).
Proof.
  intros (Hy & Hm & Hd).
  unfold new, _check_date_fields, MINYEAR, MAXYEAR.
  apply between_spec in Hy, Hm, Hd. rewrite Hy, Hm, Hd. reflexivity.
Qed.

Lemma new_day_overflow (y m d H M S us : Z) :
  d > _days_in_month y m ->
  exists msg, new y m d H M S us = inl (ValueError msg).
Proof.
  intros Hd. unfold new, _check_date_fields.
  destruct (between MINYEAR y MAXYEAR); simpl; [|eauto].
  destruct (between 1 m 12); simpl; [|eauto].
  destruct (between 1 d (_days_in_month y m)) eqn:Ed; simpl; [|eauto].
  apply between_spec in Ed. lia.
Qed.

Lemma strptime_inr (s fmt : pystr) (dt : datetime) :
  strptime s fmt = inr dt ->
  valid_date (year dt) (month dt) (day dt)
  /\ dt = midnight (year dt) (month dt) (day dt).
Proof.
  unfold strptime.
  destruct (re_match _ _ _) as [[found [|c rest]]|]; try discriminate.
  destruct (group_int (group_Y found) 1900) as [e|y]; simpl; [discriminate|].
  destruct (group_int (group_m found) 1) as [e|m]; simpl; [discriminate|].
  destruct (group_int (group_d found) 1) as [e|d]; simpl; [discriminate|].
  intros H. apply new_inr in H. destruct H as (Hv & _ & _ & _ & _ & ->).
  simpl. split; [exact Hv | reflexivity].
Qed.

(** ** Decimal digits *)

Ltac split_range x lo hi :=
  let b := eval compute in (lo <=? hi) in
  match b with
  | true =>
      let lo' := eval compute in (lo + 1) in
      destruct (Z.eq_dec x lo) as [->|]; [|split_range x lo' hi]
  | false => exfalso; lia
  end.

Lemma digit_props (k : Z) :
  0 <= k <= 9 ->
  PyStr.isdecimal_char (digit k) = true
  /\ PyStr.decimal_value (digit k) = Some k
  /\ PyStr.isspace_char (digit k) = false
  /\ ascii_digit (digit k) = true.
Proof.
  intros Hk. split_range k 0 9; vm_compute; auto.
Qed.

Lemma digits_of (n : Z) :
  0 <= n <= 9999 ->
  0 <= n / 1000 <= 9 /\ 0 <= n / 100 mod 10 <= 9
  /\ 0 <= n / 10 mod 10 <= 9 /\ 0 <= n mod 10 <= 9
  /\ n = 10 * (10 * (10 * (n / 1000) + n / 100 mod 10) + n / 10 mod 10)
         + n mod 10.
Proof.
  intros Hn. Z.to_euclidean_division_equations. lia.
Qed.

Lemma strip_digits (s : pystr) :
  Forall (fun c => PyStr.isspace_char c = false) s -> PyStr.strip s = s.
Proof.
  intros Hs. unfold PyStr.strip, PyStr.rstrip_by, PyStr.lstrip_by.
  assert (Hd : forall t, Forall (fun c => PyStr.isspace_char c = false) t ->
                         PyStr.dropwhile PyStr.isspace_char t = t).
  { intros t Ht. destruct Ht as [|c t Hc Ht]; simpl; [reflexivity|].
    rewrite Hc. reflexivity. }
  rewrite (Hd s Hs), Hd, rev_involutive; [reflexivity|].
  apply Forall_rev. exact Hs.
Qed.

Lemma int_dec4 (n : Z) : 0 <= n <= 9999 -> PyStr.int (dec4 n) = Some n.
Proof.
  intros Hn. destruct (digits_of n Hn) as (H3 & H2 & H1 & H0 & E).
  destruct (digit_props _ H3) as (_ & V3 & S3 & _).
  destruct (digit_props _ H2) as (_ & V2 & S2 & _).
  destruct (digit_props _ H1) as (_ & V1 & S1 & _).
  destruct (digit_props _ H0) as (_ & V0 & S0 & _).
  unfold PyStr.int. rewrite strip_digits by (unfold dec4; auto).
  unfold dec4. cbn -[Z.mul Z.add Z.div Z.modulo digit].
  rewrite V3, V2, V1, V0.
  f_equal. lia.
Qed.

Lemma int_dec2 (n : Z) : 0 <= n <= 99 -> PyStr.int (dec2 n) = Some n.
Proof.
  intros Hn.
  assert (H1 : 0 <= n / 10 <= 9) by (Z.to_euclidean_division_equations; lia).
  assert (H0 : 0 <= n mod 10 <= 9) by (Z.to_euclidean_division_equations; lia).
  assert (E : n = 10 * (n / 10) + n mod 10)
    by (Z.to_euclidean_division_equations; lia).
  destruct (digit_props _ H1) as (_ & V1 & S1 & _).
  destruct (digit_props _ H0) as (_ & V0 & S0 & _).
  unfold PyStr.int. rewrite strip_digits by (unfold dec2; auto).
  unfold dec2. cbn -[Z.mul Z.add Z.div Z.modulo digit].
  rewrite V1, V0.
  f_equal. lia.
Qed.

(** ** Parsing what [strftime] prints *)

Lemma parse_format_Ymd : parse_format false (str "%Y-%m-%d") = items_Ymd.
Proof. reflexivity. Qed.

Lemma re_match_Y (items : list item) (a b c d : char) (rest : pystr)
      (g : groups) :
  PyStr.isdecimal_char a = true -> PyStr.isdecimal_char b = true ->
  PyStr.isdecimal_char c = true -> PyStr.isdecimal_char d = true ->
  re_match (Dir dir_Y :: items) (a :: b :: c :: d :: rest) g
  = re_match items rest (set_group dir_Y [a; b; c; d] g).
Proof.
  intros Ha Hb Hc Hd.
  cbn [re_match regex_of match_alts match_seq first_some fst snd].
  rewrite Ha, Hb, Hc, Hd.
  cbn [re_match regex_of match_alts match_seq first_some fst snd].
  destruct (re_match items rest _); reflexivity.
Qed.

Lemma re_match_lit (items : list item) (c : char) (s : pystr) (g : groups) :
  re_match (Lit c :: items) (c :: s) g = re_match items s g.
Proof. cbn [re_match]. rewrite Z.eqb_refl. reflexivity. Qed.

Lemma re_match_m (items : list item) (m : Z) (rest : pystr) (g : groups) :
  1 <= m <= 12 ->
  re_match (Dir dir_m :: Lit (ch "-") :: items) (dec2 m ++ ch "-" :: rest) g
  = re_match items rest (set_group dir_m (dec2 m) g).
Proof.
  intros Hm. split_range m 1 12;
    cbn; destruct (re_match items rest _); reflexivity.
Qed.

Lemma re_match_d (d : Z) (g : groups) :
  1 <= d <= 31 ->
  re_match [Dir dir_d] (dec2 d) g = Some (set_group dir_d (dec2 d) g, []).
Proof.
  intros Hd. split_range d 1 31; reflexivity.
Qed.

Lemma days_in_month_le_31 (y m : Z) : _days_in_month y m <= 31.
Proof.
  unfold _days_in_month.
  destruct ((m =? 2) && _is_leap y); [lia|].
  destruct (Z.to_nat m) as [|[|[|[|[|[|[|[|[|[|[|[|[|[|n]]]]]]]]]]]]]];
    simpl; lia.
Qed.

Lemma strptime_iso (y m d : Z) :
  valid_date y m d ->
  strptime (iso_form y m d) (str "%Y-%m-%d") = inr (midnight y m d).
Proof.
  intros Hv. pose proof Hv as (Hy & Hm & Hd).
  pose proof (days_in_month_le_31 y m) as H31.
  assert (Hy' : 0 <= y <= 9999) by lia.
  destruct (digits_of y Hy') as (H3 & H2 & H1 & H0 & _).
  destruct (digit_props _ H3) as (D3 & _).
  destruct (digit_props _ H2) as (D2 & _).
  destruct (digit_props _ H1) as (D1 & _).
  destruct (digit_props _ H0) as (D0 & _).
  unfold strptime. rewrite parse_format_Ymd. unfold items_Ymd, iso_form.
  unfold dec4 at 1. cbn [app].
  rewrite re_match_Y by assumption.
  rewrite re_match_lit, re_match_m by assumption.
  rewrite re_match_d by lia.
  cbn [set_group no_groups group_Y group_m group_d group_int].
  fold (dec4 y).
  rewrite int_dec4, !int_dec2 by lia.
  cbn [bind ret]. apply new_date_ok. exact Hv.
Qed.

(** ** The year printed without padding *)

Lemma dropwhile_length (p : char -> bool) (s : pystr) :
  (List.length (PyStr.dropwhile p s) <= List.length s)%nat.
Proof.
  induction s as [|c s IH]; simpl; [lia|].
  destruct (p c); simpl; lia.
Qed.

Lemma dec_four_digits (y : Z) : 1000 <= y <= 9999 -> dec y = dec4 y.
Proof.
  intros Hy. unfold dec, dec4. cbn [PyStr.dropwhile].
  assert (E : exactly "0" (digit (y / 1000)) = false).
  { unfold exactly, digit. apply Z.eqb_neq.
    Z.to_euclidean_division_equations. lia. }
  rewrite E. reflexivity.
Qed.

Lemma dec_short (y : Z) : 0 <= y <= 999 -> (List.length (dec y) <= 3)%nat.
Proof.
  intros Hy. unfold dec, dec4.
  replace (y / 1000) with 0 by (Z.to_euclidean_division_equations; lia).
  change (PyStr.dropwhile (exactly "0") (digit 0 :: ?l))
    with (PyStr.dropwhile (exactly "0") l).
  match goal with
  | |- context [PyStr.dropwhile ?p ?l] =>
      pose proof (dropwhile_length p l) as Hl;
      destruct (PyStr.dropwhile p l)
  end; simpl in *; lia.
Qed.

Lemma strptime_short_year (s rest : pystr) :
  (List.length s <= 3)%nat ->
  exists msg,
    strptime (s ++ ch "-" :: rest) (str "%Y-%m-%d") = inl (ValueError msg).
Proof.
  intros Hs. unfold strptime. rewrite parse_format_Ymd. unfold items_Ymd.
  assert (E : match_seq [PyStr.isdecimal_char; PyStr.isdecimal_char;
                         PyStr.isdecimal_char; PyStr.isdecimal_char]
                        (s ++ ch "-" :: rest) = None).
  { destruct s as [|a [|b [|c [|d s]]]]; [| | | |simpl in Hs; lia];
      cbn [app match_seq];
      repeat match goal with
        | |- context [PyStr.isdecimal_char ?x] =>
            is_var x; destruct (PyStr.isdecimal_char x); try reflexivity
        end; reflexivity. }
  cbn [re_match regex_of match_alts]. rewrite E. cbn [first_some].
  eexists. reflexivity.
Qed.

(** ** What the constructor of [Birthday] stores *)

Lemma strftime_Ymd {libc : CLib} (dt : datetime) :
  strftime dt (str "%Y-%m-%d")
  = (if strftime_pads_year then dec4 (year dt) else dec (year dt))
      ++ ch "-" :: dec2 (month dt) ++ ch "-" :: dec2 (day dt).
Proof. reflexivity. Qed.

Lemma strftime_dmY {libc : CLib} (dt : datetime) :
  strftime dt (str "%d.%m.%Y")
  = dec2 (day dt) ++ ch "." :: dec2 (month dt) ++ ch "."
      :: (if strftime_pads_year then dec4 (year dt) else dec (year dt)).
Proof.
  unfold strftime. cbn. rewrite app_nil_r. reflexivity.
Qed.

Lemma try_formats_inr {libc : CLib} (s v : pystr) (formats : list pystr) :
  Birthday.try_formats s formats = inr v ->
  exists fmt dt,
    In fmt formats /\ strptime s fmt = inr dt
    /\ v = strftime dt (str "%Y-%m-%d").
Proof.
  induction formats as [|fmt formats IH]; simpl; [discriminate|].
  destruct (strptime s fmt) as [[msg]|dt] eqn:E.
  - intros H. destruct (IH H) as (f & dt & Hin & Hp & Hv).
    exists f, dt. auto.
  - intros [= <-]. exists fmt, dt. auto.
Qed.

Lemma Birthday_init_inr {libc : CLib} (s : pystr) (b : Field.t) :
  Birthday.__init__ s = inr b ->
  exists y m d,
    valid_date y m d /\ Field.value b = iso_form y m d
    /\ (strftime_pads_year = false -> 1000 <= y).
Proof.
  unfold Birthday.__init__, Birthday._standardize_date_format.
  destruct (Birthday.try_formats _ _) as [e|v] eqn:Ev; cbn [bind];
    [discriminate|].
  apply try_formats_inr in Ev. destruct Ev as (fmt & dt & _ & Hp & ->).
  apply strptime_inr in Hp. destruct Hp as (Hv & Hdt).
  destruct dt as [y m d H M S us]. cbn [year month day] in Hv.
  rewrite strftime_Ymd. cbn [year month day].
  destruct strftime_pads_year eqn:Epad.
  - destruct (strptime _ _) as [[msg]|dt']; [discriminate|].
    intros [= <-]. exists y, m, d. repeat split; try apply Hv.
    discriminate.
  - destruct (Z_lt_ge_dec y 1000) as [Hlt|Hge].
    + destruct (strptime_short_year (dec y) (dec2 m ++ ch "-" :: dec2 d))
        as [msg E]; [apply dec_short; unfold valid_date in Hv; lia|].
      rewrite E. discriminate.
    + destruct (strptime _ _) as [[msg]|dt']; [discriminate|].
      intros [= <-]. exists y, m, d.
      rewrite dec_four_digits by (unfold valid_date in Hv; lia).
      repeat split; try apply Hv. lia.
Qed.

Lemma digit_plain (k : Z) : 0 <= k <= 9 -> plain (digit k).
Proof.
  intros Hk. unfold plain. split_range k 0 9; vm_compute; auto.
Qed.

Lemma iso_form_chars (y m d : Z) :
  valid_date y m d ->
  exists a1 a2 a3 a4 b1 b2 c1 c2,
    iso_form y m d = [a1; a2; a3; a4; ch "-"; b1; b2; ch "-"; c1; c2]
    /\ Forall plain [a1; a2; a3; a4; b1; b2; c1; c2]
    /\ Forall (fun c => ascii_digit c = true) [a1; a2; a3; a4; b1; b2; c1; c2].
Proof.
  intros (Hy & Hm & Hd). pose proof (days_in_month_le_31 y m) as H31.
  assert (Hy' : 0 <= y <= 9999) by lia.
  destruct (digits_of y Hy') as (H3 & H2 & H1 & H0 & _).
  assert (0 <= m / 10 <= 9 /\ 0 <= m mod 10 <= 9
          /\ 0 <= d / 10 <= 9 /\ 0 <= d mod 10 <= 9) as (M1 & M0 & D1 & D0)
    by (Z.to_euclidean_division_equations; lia).
  do 8 eexists. split; [reflexivity|].
  split; repeat constructor;
    solve [apply digit_plain; assumption | apply digit_props; assumption].
Qed.

Lemma normalize_iso (y m d : Z) :
  valid_date y m d ->
  PyStr.strip_chars (str "-")
    (PyRe.sub_class_plus Birthday.is_delimiter (str "-")
       (PyStr.strip (iso_form y m d)))
  = iso_form y m d.
Proof.
  intros Hv.
  destruct (iso_form_chars y m d Hv)
    as (a1 & a2 & a3 & a4 & b1 & b2 & c1 & c2 & -> & Hp & _).
  repeat match goal with
         | H : Forall _ (_ :: _) |- _ => inversion_clear H
         end.
  repeat match goal with
         | H : plain _ |- _ => destruct H as (? & ? & ?)
         end.
  assert (Hdash : PyStr.isspace_char (ch "-") = false) by reflexivity.
  rewrite strip_digits by (repeat constructor; assumption).
  assert (Hdel : Birthday.is_delimiter (ch "-") = true) by reflexivity.
  unfold PyRe.sub_class_plus. cbn [PyRe.sub_runs].
  repeat match goal with
         | H : Birthday.is_delimiter _ = _ |- _ => rewrite H; clear H
         end.
  change (str "-") with [ch "-"] in *. cbn [app].
  unfold PyStr.strip_chars, PyStr.rstrip_by, PyStr.lstrip_by.
  cbn [PyStr.dropwhile].
  match goal with
  | H : existsb (Z.eqb a1) _ = false |- _ => rewrite H
  end.
  cbn [rev app PyStr.dropwhile].
  match goal with
  | H : existsb (Z.eqb c2) _ = false |- _ => rewrite H
  end.
  reflexivity.
Qed.

Lemma strftime_midnight_iso {libc : CLib} (y m d : Z) :
  strftime_pads_year = true \/ 1000 <= y <= 9999 ->
  strftime (midnight y m d) (str "%Y-%m-%d") = iso_form y m d.
Proof.
  intros Hy. rewrite strftime_Ymd. cbn [midnight year month day].
  destruct strftime_pads_year; [reflexivity|].
  destruct Hy as [Hy|Hy]; [discriminate|].
  rewrite dec_four_digits by lia. reflexivity.
Qed.

Lemma strftime_midnight_display {libc : CLib} (y m d : Z) :
  strftime_pads_year = true \/ 1000 <= y <= 9999 ->
  strftime (midnight y m d) (str "%d.%m.%Y") = display_form y m d.
Proof.
  intros Hy. rewrite strftime_dmY. cbn [midnight year month day].
  destruct strftime_pads_year; [reflexivity|].
  destruct Hy as [Hy|Hy]; [discriminate|].
  rewrite dec_four_digits by lia. reflexivity.
Qed.

Lemma canonical_shape_iso (y m d : Z) :
  valid_date y m d -> canonical_shape (iso_form y m d) = true.
Proof.
  intros Hv.
  destruct (iso_form_chars y m d Hv)
    as (a1 & a2 & a3 & a4 & b1 & b2 & c1 & c2 & -> & _ & Hd).
  unfold canonical_shape. rewrite !Z.eqb_refl, !andb_true_r.
  apply forallb_forall. apply Forall_forall. exact Hd.
Qed.

(** ** Properties of [Birthday] *)

(** C6: [_standardize_date_format] replaces the delimiters and then tries the
    formats in the order YYYY-MM-DD, DD-MM-YYYY, MM-DD-YYYY, the first one
    that parses giving the result; "1990-06-15", "1990.06.15", "15-06-1990"
    and "06-15-1990" all give "1990-06-15"; "15-06-1990" is read day first,
    and so is "05-06-1990", which both DD-MM-YYYY and MM-DD-YYYY accept. *)
Theorem standardize_first_format_wins :
  (forall (libc : CLib) (s : pystr),
      let n := PyStr.strip_chars (str "-")
                 (PyRe.sub_class_plus Birthday.is_delimiter (str "-") s) in
      Birthday._standardize_date_format s
      = match strptime n (str "%Y-%m-%d") with
        | inr dt => inr (strftime dt (str "%Y-%m-%d"))
        | inl _ =>
            match strptime n (str "%d-%m-%Y") with
            | inr dt => inr (strftime dt (str "%Y-%m-%d"))
            | inl _ =>
                match strptime n (str "%m-%d-%Y") with
                | inr dt => inr (strftime dt (str "%Y-%m-%d"))
                | inl _ => inl (ValueError (str "Unable to parse date format"))
                end
            end
        end)
  /\ (forall (libc : CLib) (s : string),
         In s ["1990-06-15"; "1990.06.15"; "15-06-1990"; "06-15-1990"]%string ->
         Birthday.__init__ (str s) = inr (Field.mk (str "1990-06-15")))
  /\ strptime (str "15-06-1990") (str "%d-%m-%Y") = inr (midnight 1990 6 15)
  /\ strptime (str "05-06-1990") (str "%m-%d-%Y") = inr (midnight 1990 5 6)
  /\ (forall libc : CLib,
         Birthday.__init__ (str "05-06-1990")
         = inr (Field.mk (str "1990-06-05"))).
Proof.
  split; [|split; [|split; [|split]]].
  - intros libc s n. unfold Birthday._standardize_date_format. fold n.
    cbn [Birthday.try_formats Birthday.formats_to_try].
    destruct (strptime n (str "%Y-%m-%d")) as [[?]|?]; [|reflexivity].
    destruct (strptime n (str "%d-%m-%Y")) as [[?]|?]; [|reflexivity].
    destruct (strptime n (str "%m-%d-%Y")) as [[?]|?]; reflexivity.
  - intros [[|]] s Hs; simpl in Hs;
      repeat (destruct Hs as [<-|Hs]; [vm_compute; reflexivity|]);
      contradiction.
  - vm_compute. reflexivity.
  - vm_compute. reflexivity.
  - intros [[|]]; vm_compute; reflexivity.
Qed.

(** The constructor on the canonical form of a date. *)
Lemma Birthday_init_iso {libc : CLib} (y m d : Z) :
  valid_date y m d ->
  Birthday.__init__ (iso_form y m d)
  = match strptime (strftime (midnight y m d) (str "%Y-%m-%d"))
                   (str "%Y-%m-%d") with
    | inr _ => inr (Field.mk (strftime (midnight y m d) (str "%Y-%m-%d")))
    | inl _ =>
        inl (ValueError (str "Invalid birthday format. Use YYYY-MM-DD, YYYY.MM.DD, DD.MM.YYYY, or DD-MM-YYYY"))
    end.
Proof.
  intros Hv. unfold Birthday.__init__, Birthday._standardize_date_format.
  rewrite normalize_iso by assumption.
  cbn [Birthday.try_formats Birthday.formats_to_try].
  rewrite strptime_iso by assumption. cbn [ret bind].
  destruct (strptime _ _) as [[msg]|dt]; reflexivity.
Qed.

Lemma Birthday_init_iso_ok {libc : CLib} (y m d : Z) :
  valid_date y m d ->
  strftime_pads_year = true \/ 1000 <= y ->
  Birthday.__init__ (iso_form y m d) = inr (Field.mk (iso_form y m d)).
Proof.
  intros Hv Hy.
  assert (Hy' : strftime_pads_year = true \/ 1000 <= y <= 9999)
    by (unfold valid_date in Hv; destruct Hy; [left; assumption | right; lia]).
  rewrite Birthday_init_iso, strftime_midnight_iso, strptime_iso by assumption.
  reflexivity.
Qed.

Lemma display_format_iso {libc : CLib} (y m d : Z) :
  valid_date y m d ->
  strftime_pads_year = true \/ 1000 <= y ->
  Birthday.display_format (Field.mk (iso_form y m d)) = display_form y m d.
Proof.
  intros Hv Hy.
  assert (Hy' : strftime_pads_year = true \/ 1000 <= y <= 9999)
    by (unfold valid_date in Hv; destruct Hy; [left; assumption | right; lia]).
  unfold Birthday.display_format. cbn [Field.value].
  rewrite strptime_iso by assumption.
  apply strftime_midnight_display. assumption.
Qed.

(** Whatever the input, a birthday that was constructed displays as the
    DD.MM.YYYY form of the date it stores. *)
Lemma display_format_of_constructed {libc : CLib} (s : pystr) (b : Field.t) :
  Birthday.__init__ s = inr b ->
  exists y m d,
    valid_date y m d /\ Field.value b = iso_form y m d
    /\ Birthday.display_format b = display_form y m d.
Proof.
  intros H. destruct (Birthday_init_inr s b H) as (y & m & d & Hv & E & Hy).
  exists y, m, d. split; [exact Hv|]. split; [exact E|].
  destruct b as [v]. cbn [Field.value] in E. subst v.
  apply display_format_iso; [exact Hv|].
  destruct strftime_pads_year; [left; reflexivity | right; auto].
Qed.

(** C7: a birthday constructed from the canonical form YYYY-MM-DD of a date
    stores that form, and [display_format] renders it as DD.MM.YYYY; so
    "1990-06-15" is displayed as "15.06.1990". *)
Theorem display_format_round_trip {libc : CLib} (y m d : Z) (b : Field.t) :
  valid_date y m d ->
  Birthday.__init__ (iso_form y m d) = inr b ->
  Field.value b = iso_form y m d
  /\ Birthday.display_format b = display_form y m d.
Proof.
  intros Hv H.
  assert (Hy : strftime_pads_year = true \/ 1000 <= y).
  { destruct strftime_pads_year eqn:Epad; [left; reflexivity | right].
    destruct (Z_lt_ge_dec y 1000) as [Hlt|Hge]; [exfalso | lia].
    rewrite Birthday_init_iso, strftime_Ymd, Epad in H by assumption.
    cbn [midnight year month day] in H.
    destruct (strptime_short_year (dec y) (dec2 m ++ ch "-" :: dec2 d))
      as [msg E]; [apply dec_short; unfold valid_date in Hv; lia|].
    rewrite E in H. discriminate. }
  rewrite Birthday_init_iso_ok in H by assumption.
  injection H as <-. split; [reflexivity|].
  apply display_format_iso; assumption.
Qed.

Lemma display_format_round_trip_1990_06_15 :
  valid_date 1990 6 15
  /\ Birthday.__init__ (libc := glibc) (str "1990-06-15")
     = inr (Field.mk (str "1990-06-15"))
  /\ Field.value (Field.mk (str "1990-06-15")) = str "1990-06-15"
  /\ Birthday.display_format (libc := glibc) (Field.mk (str "1990-06-15"))
     = str "15.06.1990".
Proof.
  assert (Hv : valid_date 1990 6 15) by (vm_compute; intuition discriminate).
  assert (Hb : Birthday.__init__ (libc := glibc) (iso_form 1990 6 15)
               = inr (Field.mk (str "1990-06-15")))
    by (vm_compute; reflexivity).
  split; [exact Hv|]. split; [exact Hb|].
  exact (display_format_round_trip (libc := glibc) 1990 6 15 _ Hv Hb).
Defined.

(** Where the C library matters: a year below 1000. *)
Lemma year_below_1000_depends_on_libc :
  Birthday.__init__ (libc := padding_libc) (str "0990-06-15")
  = inr (Field.mk (str "0990-06-15"))
  /\ Birthday.__init__ (libc := glibc) (str "0990-06-15")
     = inl (ValueError (str "Invalid birthday format. Use YYYY-MM-DD, YYYY.MM.DD, DD.MM.YYYY, or DD-MM-YYYY")).
Proof. split; vm_compute; reflexivity. Qed.

(** C10: "1990-6-5", with month and day not padded, is accepted and stored
    as "1990-06-05"; whatever the input, the value stored by a constructor
    that succeeds has the shape YYYY-MM-DD, month and day on two digits. *)
Theorem birthday_value_is_canonical :
  (forall libc : CLib,
      Birthday.__init__ (str "1990-6-5") = inr (Field.mk (str "1990-06-05")))
  /\ (forall (libc : CLib) (s : pystr) (b : Field.t),
         Birthday.__init__ s = inr b ->
         canonical_shape (Field.value b) = true
         /\ exists y m d, valid_date y m d /\ Field.value b = iso_form y m d).
Proof.
  split.
  - intros [[|]]; vm_compute; reflexivity.
  - intros libc s b H.
    destruct (Birthday_init_inr s b H) as (y & m & d & Hv & E & _).
    split; [rewrite E; apply canonical_shape_iso; exact Hv|].
    exists y, m, d. auto.
Qed.

Lemma birthday_value_is_canonical_1990_6_5 :
  canonical_shape (str "1990-06-05") = true.
Proof.
  exact (proj1 (proj2 birthday_value_is_canonical glibc (str "1990-6-5")
                      (Field.mk (str "1990-06-05"))
                      (proj1 birthday_value_is_canonical glibc))).
Defined.

(** ** Properties of [Record] *)

(** C8: when the constructor of [Birthday] raises on the given string,
    [add_birthday] raises the same [ValueError] and the record is left as it
    was, birthday and all other attributes. *)
Theorem add_birthday_failure_atomic {libc : CLib} (raw : pystr)
        (self : Record.t) (e : exn) :
  Birthday.__init__ raw = inl e ->
  Record.add_birthday raw self = (inl e, self)
  /\ exists msg, e = ValueError msg.
Proof.
  intros H. unfold Record.add_birthday. rewrite H.
  split; [reflexivity|]. destruct e as [msg]. exists msg. reflexivity.
Qed.

Lemma add_birthday_failure_atomic_invalid_date :
  Birthday.__init__ (libc := glibc) (str "invalid-date")
  = inl (ValueError (str "Unable to parse date format"))
  /\ Record.add_birthday (libc := glibc) (str "invalid-date") john_1990
     = (inl (ValueError (str "Unable to parse date format")), john_1990)
  /\ exists msg,
      ValueError (str "Unable to parse date format") = ValueError msg.
Proof.
  assert (H : Birthday.__init__ (libc := glibc) (str "invalid-date")
              = inl (ValueError (str "Unable to parse date format")))
    by (vm_compute; reflexivity).
  split; [exact H|].
  exact (add_birthday_failure_atomic (libc := glibc) (str "invalid-date")
                                     john_1990 _ H).
Defined.

(** ** Properties of [Phone] *)

Lemma forallb_range (P : Z -> bool) (n : nat) :
  forallb P (map Z.of_nat (seq 0 n)) = true ->
  forall x, 0 <= x < Z.of_nat n -> P x = true.
Proof.
  intros H x Hx. rewrite forallb_forall in H. apply H.
  apply in_map_iff. exists (Z.to_nat x). split; [lia|].
  apply in_seq. lia.
Qed.

Lemma isdigit_char_ascii (c : char) :
  is_ascii c = true -> PyStr.isdigit_char c = ascii_digit c.
Proof.
  intros Hc. apply between_spec in Hc.
  apply Bool.eqb_prop.
  apply (forallb_range
           (fun c => Bool.eqb (PyStr.isdigit_char c) (ascii_digit c)) 128);
    [vm_compute; reflexivity | lia].
Qed.

Lemma forallb_dropwhile (P p : char -> bool) (s : pystr) :
  forallb P s = true -> forallb P (PyStr.dropwhile p s) = true.
Proof.
  induction s as [|c s IH]; simpl; [auto|].
  intros H. destruct (p c); [|exact H].
  apply andb_true_iff in H. apply IH, H.
Qed.

Lemma forallb_rev (P : char -> bool) (s : pystr) :
  forallb P s = true -> forallb P (rev s) = true.
Proof.
  rewrite !forallb_forall. intros H x Hx. apply H, in_rev, Hx.
Qed.

Lemma forallb_strip (P : char -> bool) (s : pystr) :
  forallb P s = true -> forallb P (PyStr.strip s) = true.
Proof.
  intros H. unfold PyStr.strip, PyStr.rstrip_by, PyStr.lstrip_by.
  apply forallb_rev, forallb_dropwhile, forallb_rev, forallb_dropwhile, H.
Qed.

Lemma forallb_ext_in (P Q : char -> bool) (A : char -> bool) (s : pystr) :
  (forall c, A c = true -> P c = Q c) ->
  forallb A s = true -> forallb P s = forallb Q s.
Proof.
  intros HPQ. induction s as [|c s IH]; simpl; [reflexivity|].
  intros H. apply andb_true_iff in H. destruct H as [Hc Hs].
  rewrite (HPQ c Hc), (IH Hs). reflexivity.
Qed.

Lemma isdigit_length_10 (s : pystr) :
  PyStr.isdigit s && (PyStr.len s =? 10) = true
  <-> forallb PyStr.isdigit_char s = true /\ PyStr.len s = 10.
Proof.
  rewrite andb_true_iff, Z.eqb_eq. unfold PyStr.isdigit, PyStr.len.
  destruct s; simpl List.length; [|tauto].
  split; intros [H1 H2]; [discriminate | lia].
Qed.

(** C2, as the code has it: the constructor succeeds, storing the trimmed
    string, exactly when the trimmed string has ten characters that
    [str.isdigit] accepts, and raises [ValueError] otherwise; these
    characters are the ASCII digits when the input is made of ASCII
    characters, but the test accepts other Unicode digits too. *)
Theorem Phone_init_isdigit (s : pystr) :
  (Phone.__init__ s = inr (Field.mk (PyStr.strip s))
   <-> forallb PyStr.isdigit_char (PyStr.strip s) = true
       /\ PyStr.len (PyStr.strip s) = 10)
  /\ (forall p, Phone.__init__ s = inr p -> Field.value p = PyStr.strip s)
  /\ (~ (forallb PyStr.isdigit_char (PyStr.strip s) = true
         /\ PyStr.len (PyStr.strip s) = 10) ->
      Phone.__init__ s
      = inl (ValueError (str "Phone number must contain exactly 10 digits.")))
  /\ (forallb is_ascii s = true ->
      forallb PyStr.isdigit_char (PyStr.strip s)
      = forallb ascii_digit (PyStr.strip s)).
Proof.
  assert (Hascii : forallb is_ascii s = true ->
                    forallb PyStr.isdigit_char (PyStr.strip s)
                    = forallb ascii_digit (PyStr.strip s)).
  { intros Ha. apply (forallb_ext_in _ _ is_ascii).
    - apply isdigit_char_ascii.
    - apply forallb_strip, Ha. }
  unfold Phone.__init__. cbv zeta.
  pose proof (isdigit_length_10 (PyStr.strip s)) as Hiff.
  destruct (PyStr.isdigit (PyStr.strip s) && (PyStr.len (PyStr.strip s) =? 10))
    eqn:E; cbn [negb].
  - split; [split; [intros _; apply Hiff; reflexivity | reflexivity]|].
    split; [intros p [= <-]; reflexivity|].
    split; [|exact Hascii].
    intros Hn. exfalso. apply Hn, Hiff. reflexivity.
  - split; [split; [discriminate | intros H; apply Hiff in H; discriminate]|].
    split; [discriminate|].
    split; [reflexivity | exact Hascii].
Qed.

(** C2, as stated, fails: a string of ten Arabic-Indic digits is accepted
    although none of its characters is an ASCII digit. *)
Lemma Phone_init_accepts_non_ascii_digits :
  ~ ((exists p, Phone.__init__ arabic_indic_phone = inr p
                /\ Field.value p = PyStr.strip arabic_indic_phone)
     <-> (forallb ascii_digit (PyStr.strip arabic_indic_phone) = true
          /\ PyStr.len (PyStr.strip arabic_indic_phone) = 10)).
Proof.
  intros [H _].
  assert (Hp : exists p, Phone.__init__ arabic_indic_phone = inr p
                         /\ Field.value p = PyStr.strip arabic_indic_phone).
  { exists (Field.mk arabic_indic_phone). split; reflexivity. }
  destruct (H Hp) as [Hd _]. vm_compute in Hd. discriminate.
Qed.

(** ** Properties of [edit_phone] *)

Lemma find_from_none (phone : pystr) (l : list Field.t) (i : nat) :
  Record.find_from phone l i = None
  <-> forall p, In p l -> PyStr.eqb (Field.value p) phone = false.
Proof.
  revert i. induction l as [|q l IH]; intros i; simpl.
  - split; [intros _ p [] | reflexivity].
  - destruct (PyStr.eqb (Field.value q) phone) eqn:E.
    + split; [discriminate|]. intros H. rewrite (H q) in E by auto.
      discriminate.
    + rewrite IH. split.
      * intros H p [<-|Hp]; auto.
      * intros H p Hp. apply H. auto.
Qed.

(** The first half of C3: no stored phone equal to [old_phone], and the call
    raises, leaving the record as it was. *)
Lemma edit_phone_not_found (old_phone new_phone : pystr) (self : Record.t) :
  (forall p, In p (Record.phones self) ->
             PyStr.eqb (Field.value p) old_phone = false) ->
  Record.edit_phone old_phone new_phone self
  = (inl (ValueError (str "Phone number " ++ old_phone ++ str " not found.")),
     self).
Proof.
  intros H. unfold Record.edit_phone, Record.find_phone.
  apply (find_from_none old_phone (Record.phones self) 0) in H.
  rewrite H. reflexivity.
Qed.

(** C3, second half, at a failing input: on the record of the demonstration,
    with two valid phones, [edit_phone] stores "abc" without complaint, a
    value that the constructor of [Phone] rejects, and the record no longer
    satisfies the invariant of its phones. *)
Theorem edit_phone_stores_unvalidated_value :
  exists r,
    john = Some r
    /\ forallb phone_invariant (Record.phones r) = true
    /\ Record.edit_phone (str "1234567890") (str "abc") r
       = (inr tt,
          Record.mk (Record.name r)
                    [Field.mk (str "abc"); Field.mk (str "5555555555")]
                    (Record.birthday r))
    /\ phone_invariant (Field.mk (str "abc")) = false
    /\ Phone.__init__ (str "abc")
       = inl (ValueError (str "Phone number must contain exactly 10 digits.")).
Proof.
  eexists. split; [vm_compute; reflexivity|].
  repeat split; vm_compute; reflexivity.
Qed.

(** ** Properties of [get_upcoming_birthdays] *)

Lemma get_upcoming_birthdays_app {libc : CLib} (today : datetime)
      (l1 l2 : AddressBook.t) (acc : list AddressBook.entry) :
  fold_left (AddressBook.loop_body today) (l1 ++ l2) acc
  = fold_left (AddressBook.loop_body today) l2
              (fold_left (AddressBook.loop_body today) l1 acc).
Proof. apply fold_left_app. Qed.

Lemma adjust_to_monday_overflow (next_birthday : datetime) :
  weekday next_birthday = 5 \/ weekday next_birthday = 6 ->
  day next_birthday + (7 - weekday next_birthday)
  > _days_in_month (year next_birthday) (month next_birthday) ->
  exists msg, AddressBook.adjust_to_monday next_birthday = inl (ValueError msg).
Proof.
  intros Hw Hd. unfold AddressBook.adjust_to_monday.
  assert (E : existsb (Z.eqb (weekday next_birthday)) [5; 6] = true).
  { destruct Hw as [-> | ->]; reflexivity. }
  rewrite E. unfold replace. cbn [or_else].
  apply new_day_overflow. exact Hd.
Qed.

(** C9: when the next birthday falls on a Saturday or Sunday and the day of
    the month plus the days to add exceeds the length of the month, writing
    the day field raises [ValueError]; the handler catches it, and the
    result of the query is the one of the book without that record: no
    invalid date, no exception for the caller. *)
Theorem month_end_shift_is_skipped {libc : CLib} (today : datetime)
        (name : pystr) (record : Record.t) (b : Field.t)
        (birthday next_birthday : datetime) (before after : AddressBook.t) :
  Record.birthday record = Some b ->
  strptime (Field.value b) (str "%Y-%m-%d") = inr birthday ->
  AddressBook.this_or_next_year today birthday = inr next_birthday ->
  weekday next_birthday = 5 \/ weekday next_birthday = 6 ->
  day next_birthday + (7 - weekday next_birthday)
  > _days_in_month (year next_birthday) (month next_birthday) ->
  (exists msg,
      AddressBook.adjust_to_monday next_birthday = inl (ValueError msg))
  /\ AddressBook.get_upcoming_birthdays today (before ++ (name, record) :: after)
     = AddressBook.get_upcoming_birthdays today (before ++ after).
Proof.
  intros Hb Hp Hn Hw Hd.
  destruct (adjust_to_monday_overflow next_birthday Hw Hd) as [msg Ha].
  split; [exists msg; exact Ha|].
  unfold AddressBook.get_upcoming_birthdays.
  rewrite !get_upcoming_birthdays_app. cbn [fold_left].
  set (acc := fold_left (AddressBook.loop_body today) before []).
  assert (E : AddressBook.loop_body today acc (name, record) = acc).
  { unfold AddressBook.loop_body. rewrite Hb.
    unfold AddressBook.try_body. rewrite Hp. cbn [bind].
    rewrite Hn. cbn [bind]. rewrite Ha. reflexivity. }
  rewrite E. reflexivity.
Qed.

Lemma month_end_shift_is_skipped_2024_11_30 :
  Record.birthday (contact "Ann" "1990-11-30") = Some (Field.mk (str "1990-11-30"))
  /\ strptime (str "1990-11-30") (str "%Y-%m-%d") = inr (midnight 1990 11 30)
  /\ AddressBook.this_or_next_year monday_25_nov_2024_9h (midnight 1990 11 30)
     = inr (midnight 2024 11 30)
  /\ (weekday (midnight 2024 11 30) = 5 \/ weekday (midnight 2024 11 30) = 6)
  /\ 30 + (7 - weekday (midnight 2024 11 30)) > _days_in_month 2024 11
  /\ (exists msg,
         AddressBook.adjust_to_monday (midnight 2024 11 30)
         = inl (ValueError msg))
  /\ AddressBook.get_upcoming_birthdays (libc := glibc) monday_25_nov_2024_9h
       ([(str "Bob", contact "Bob" "2000-11-27")]
          ++ (str "Ann", (contact "Ann" "1990-11-30")) :: [])
     = AddressBook.get_upcoming_birthdays (libc := glibc) monday_25_nov_2024_9h
         ([(str "Bob", contact "Bob" "2000-11-27")] ++ []).
Proof.
  assert (H1 : Record.birthday (contact "Ann" "1990-11-30") = Some (Field.mk (str "1990-11-30")))
    by reflexivity.
  assert (H2 : strptime (str "1990-11-30") (str "%Y-%m-%d")
               = inr (midnight 1990 11 30)) by (vm_compute; reflexivity).
  assert (H3 : AddressBook.this_or_next_year monday_25_nov_2024_9h (midnight 1990 11 30)
               = inr (midnight 2024 11 30)) by (vm_compute; reflexivity).
  assert (H4 : weekday (midnight 2024 11 30) = 5
               \/ weekday (midnight 2024 11 30) = 6)
    by (left; vm_compute; reflexivity).
  assert (H5 : 30 + (7 - weekday (midnight 2024 11 30)) > _days_in_month 2024 11)
    by (vm_compute; reflexivity).
  repeat (split; [assumption|]).
  exact (month_end_shift_is_skipped (libc := glibc) monday_25_nov_2024_9h (str "Ann") (contact "Ann" "1990-11-30")
           (Field.mk (str "1990-11-30")) (midnight 1990 11 30)
           (midnight 2024 11 30) [(str "Bob", contact "Bob" "2000-11-27")] []
           H1 H2 H3 H4 H5).
Defined.

Lemma new_ok (y m d H M S us : Z) :
  valid_date y m d -> 0 <= H <= 23 -> 0 <= M <= 59 -> 0 <= S <= 59 ->
  0 <= us <= 999999 ->
  new y m d H M S us = inr (mk_datetime y m d H M S us).
Proof.
  intros (Hy & Hm & Hd) HH HM HS Hus.
  unfold new, _check_date_fields, _check_time_fields, MINYEAR, MAXYEAR.
  apply between_spec in Hy, Hm, Hd, HH, HM, HS, Hus.
  rewrite Hy, Hm, Hd, HH, HM, HS, Hus. reflexivity.
Qed.

(** X19: Within the month the adjustment does what its comment says: the date
    moves to the Monday that follows. *)
Lemma adjust_to_monday_within_month (y m d H M S us : Z) (nb : datetime) :
  new y m d H M S us = inr nb ->
  weekday nb = 5 \/ weekday nb = 6 ->
  d + (7 - weekday nb) <= _days_in_month y m ->
  exists nb',
    AddressBook.adjust_to_monday nb = inr nb'
    /\ toordinal nb' = toordinal nb + (7 - weekday nb)
    /\ weekday nb' = 0.
Proof.
  intros Hnew Hw Hd.
  apply new_inr in Hnew.
  destruct Hnew as ((Hy & Hm & Hd') & HH & HM & HS & Hus & ->).
  unfold weekday, toordinal in *. cbn [year month day] in *.
  exists (mk_datetime y m (d + (7 - (_ymd2ord y m d + 6) mod 7)) H M S us).
  split; [|split].
  - unfold AddressBook.adjust_to_monday, weekday, toordinal.
    cbn [year month day].
    assert (E : existsb (Z.eqb ((_ymd2ord y m d + 6) mod 7)) [5; 6] = true).
    { destruct Hw as [-> | ->]; reflexivity. }
    rewrite E. unfold replace.
    cbn [or_else year month day hour minute second microsecond].
    apply new_ok; unfold valid_date; lia.
  - cbn [year month day]. unfold _ymd2ord. lia.
  - cbn [year month day]. unfold _ymd2ord in *.
    Z.to_euclidean_division_equations. lia.
Qed.

Lemma new_contact_ok {libc : CLib} :
  new_contact "Ann" "1990-11-30" = Some (contact "Ann" "1990-11-30")
  /\ new_contact "Ann" "2000-06-10" = Some (contact "Ann" "2000-06-10")
  /\ new_contact "Bob" "2000-06-12" = Some (contact "Bob" "2000-06-12").
Proof.
  destruct libc as [[|]]; repeat split; vm_compute; reflexivity.
Qed.

(** C1 at a failing input.  The clock reads Monday 25 November 2024, 09:00;
    the birthday, 30 November, falls on a Saturday.  Two days later is
    Monday 2 December, seven days after today's date (six whole days after
    the reading of the clock), so the contact belongs to the result; the
    code writes 32 into the day field of a date in November, which raises,
    and the contact is dropped. *)
Theorem weekend_shift_fails_at_month_end (libc : CLib) :
  let today := mk_datetime 2024 11 25 9 0 0 0 in
  AddressBook.this_or_next_year today (midnight 1990 11 30)
  = inr (midnight 2024 11 30)
  /\ weekday (midnight 2024 11 30) = 5
  /\ toordinal (midnight 2024 12 2) = toordinal (midnight 2024 11 30) + (7 - 5)
  /\ weekday (midnight 2024 12 2) = 0
  /\ toordinal (midnight 2024 12 2) - toordinal today = 7
  /\ days (sub (midnight 2024 12 2) today) = 6
  /\ AddressBook.get_upcoming_birthdays today
       (AddressBook.add_record (contact "Ann" "1990-11-30") [])
     = [].
Proof.
  destruct libc as [[|]]; repeat split; vm_compute; reflexivity.
Qed.

(** C5 at a failing input.  The clock reads Monday 10 June 2024, 10:00.  Ann's
    birthday is today: the code finds it before [today], moves it to 2025 and
    leaves her out.  Bob's is on Wednesday 12 June: the code counts one day,
    not two.  The same book at 00:00 gives what the claim says. *)
Theorem days_until_counts_from_the_clock_time (libc : CLib) :
  let book := AddressBook.add_record (contact "Bob" "2000-06-12")
                (AddressBook.add_record (contact "Ann" "2000-06-10") []) in
  AddressBook.get_upcoming_birthdays (mk_datetime 2024 6 10 10 0 0 0) book
  = [AddressBook.mk_entry (str "Bob") (str "12.06.2000") 1]
  /\ AddressBook.get_upcoming_birthdays (midnight 2024 6 10) book
     = [AddressBook.mk_entry (str "Ann") (str "10.06.2000") 0;
        AddressBook.mk_entry (str "Bob") (str "12.06.2000") 2].
Proof.
  destruct libc as [[|]]; split; vm_compute; reflexivity.
Qed.

(** *** How the reading of the clock enters the result *)

Lemma lt_midnight (y m d : Z) (today : datetime) :
  valid_time today ->
  lt (midnight y m d) today
  = match _cmp [y; m; d] [year today; month today; day today] with
    | Lt => true
    | Gt => false
    | Eq => negb (at_midnight today)
    end.
Proof.
  destruct today as [ty tm td H M S us].
  unfold valid_time, at_midnight, lt, fields, midnight.
  cbn [_cmp year month day hour minute second microsecond].
  intros (HH & HM & HS & Hus).
  destruct (y ?= ty); try reflexivity.
  destruct (m ?= tm); try reflexivity.
  destruct (d ?= td); try reflexivity.
  destruct (Z.compare_spec 0 H) as [<-| |]; [|
    replace (H =? 0) with false by (symmetry; apply Z.eqb_neq; lia);
    reflexivity | lia].
  destruct (Z.compare_spec 0 M) as [<-| |]; [|
    replace (M =? 0) with false by (symmetry; apply Z.eqb_neq; lia);
    reflexivity | lia].
  destruct (Z.compare_spec 0 S) as [<-| |]; [|
    replace (S =? 0) with false by (symmetry; apply Z.eqb_neq; lia);
    reflexivity | lia].
  destruct (Z.compare_spec 0 us) as [<-| |]; [reflexivity |
    replace (us =? 0) with false by (symmetry; apply Z.eqb_neq; lia);
    reflexivity | lia].
Qed.

Lemma days_sub_midnight (y m d : Z) (today : datetime) :
  valid_time today ->
  days (sub (midnight y m d) today)
  = _ymd2ord y m d - toordinal today - (if at_midnight today then 0 else 1).
Proof.
  destruct today as [ty tm td H M S us].
  unfold valid_time, at_midnight, sub, timedelta_new, toordinal, midnight.
  cbn [year month day hour minute second microsecond days].
  intros (HH & HM & HS & Hus).
  destruct (H =? 0) eqn:EH; destruct (M =? 0) eqn:EM;
    destruct (S =? 0) eqn:ES; destruct (us =? 0) eqn:Eus;
    cbn [andb];
    rewrite ?Z.eqb_eq, ?Z.eqb_neq in *;
    Z.to_euclidean_division_equations; lia.
Qed.

Lemma replace_midnight_form (dt dt' : datetime) (y m d : option Z) :
  midnight_form dt -> replace dt y m d = inr dt' -> midnight_form dt'.
Proof.
  intros -> H. unfold replace in H.
  cbn [midnight hour minute second microsecond] in H.
  apply new_inr in H. destruct H as (_ & _ & _ & _ & _ & ->). reflexivity.
Qed.

Lemma this_or_next_year_midnight_form (today bd nb : datetime) :
  midnight_form bd -> AddressBook.this_or_next_year today bd = inr nb ->
  midnight_form nb.
Proof.
  intros Hbd. unfold AddressBook.this_or_next_year.
  destruct (replace bd _ _ _) as [e|nb0] eqn:E; cbn [bind]; [discriminate|].
  pose proof (replace_midnight_form _ _ _ _ _ Hbd E) as H0.
  destruct (lt nb0 today).
  - apply replace_midnight_form. exact H0.
  - intros [= <-]. exact H0.
Qed.

Lemma adjust_to_monday_midnight_form (nb nb' : datetime) :
  midnight_form nb -> AddressBook.adjust_to_monday nb = inr nb' ->
  midnight_form nb'.
Proof.
  intros Hnb. unfold AddressBook.adjust_to_monday.
  destruct (existsb _ _).
  - apply replace_midnight_form. exact Hnb.
  - intros [= <-]. exact Hnb.
Qed.

Lemma try_body_same_day {libc : CLib} (today1 today2 : datetime)
      (name : pystr) (record : Record.t) (b : Field.t) :
  same_date today1 today2 -> valid_time today1 -> valid_time today2 ->
  at_midnight today1 = at_midnight today2 ->
  AddressBook.try_body today1 name record b
  = AddressBook.try_body today2 name record b.
Proof.
  intros (Ey & Em & Ed) Hv1 Hv2 Emid. unfold AddressBook.try_body.
  destruct (strptime _ _) as [e|bd] eqn:Ep; cbn [bind]; [reflexivity|].
  apply strptime_inr in Ep. destruct Ep as (_ & Hbd). fold (midnight_form bd) in Hbd.
  assert (Et : AddressBook.this_or_next_year today1 bd
               = AddressBook.this_or_next_year today2 bd).
  { unfold AddressBook.this_or_next_year. rewrite Ey.
    destruct (replace bd _ _ _) as [e|nb0] eqn:E; cbn [bind]; [reflexivity|].
    pose proof (replace_midnight_form _ _ _ _ _ Hbd E) as H0.
    rewrite H0, !lt_midnight, Ey, Em, Ed, Emid by assumption. reflexivity. }
  rewrite <- Et.
  destruct (AddressBook.this_or_next_year today1 bd) as [e|nb] eqn:En;
    cbn [bind]; [reflexivity|].
  apply this_or_next_year_midnight_form in En; [|exact Hbd].
  destruct (AddressBook.adjust_to_monday nb) as [e|nb'] eqn:Ea;
    cbn [bind]; [reflexivity|].
  apply adjust_to_monday_midnight_form in Ea; [|exact En].
  rewrite Ea, !days_sub_midnight by assumption.
  unfold toordinal. rewrite Ey, Em, Ed, Emid. reflexivity.
Qed.

(** X18: The clock enters the result through its date and through one bit of its
    time of day, whether it is 00:00:00 sharp. *)
Lemma get_upcoming_birthdays_same_day {libc : CLib} (today1 today2 : datetime)
      (book : AddressBook.t) :
  same_date today1 today2 -> valid_time today1 -> valid_time today2 ->
  at_midnight today1 = at_midnight today2 ->
  AddressBook.get_upcoming_birthdays today1 book
  = AddressBook.get_upcoming_birthdays today2 book.
Proof.
  intros Hd Hv1 Hv2 Hm. unfold AddressBook.get_upcoming_birthdays.
  generalize (@nil AddressBook.entry) as acc.
  induction book as [|[name record] book IH]; intros acc; cbn [fold_left];
    [reflexivity|].
  assert (E : AddressBook.loop_body today1 acc (name, record)
              = AddressBook.loop_body today2 acc (name, record)).
  { unfold AddressBook.loop_body.
    destruct (Record.birthday record) as [b|]; [|reflexivity].
    rewrite (try_body_same_day today1 today2) by assumption. reflexivity. }
  rewrite E. apply IH.
Qed.

(** A birthday that falls on the day of the reading, a working day: at
    00:00:00 the contact is returned with zero days; at any later time of
    that day the occurrence is looked for in the year after. *)
Lemma birthday_today_at_midnight {libc : CLib} (y m d y0 : Z)
      (name : pystr) (record : Record.t) (b : Field.t) :
  valid_date y m d ->
  strptime (Field.value b) (str "%Y-%m-%d") = inr (midnight y0 m d) ->
  weekday (midnight y m d) < 5 ->
  AddressBook.try_body (midnight y m d) name record b
  = inr (Some (AddressBook.mk_entry name (Birthday.display_format b) 0)).
Proof.
  intros Hv Hp Hw. unfold AddressBook.try_body. rewrite Hp. cbn [bind].
  assert (Hvt : valid_time (midnight y m d))
    by (unfold valid_time; cbn; lia).
  assert (Et : AddressBook.this_or_next_year (midnight y m d) (midnight y0 m d)
               = inr (midnight y m d)).
  { unfold AddressBook.this_or_next_year, replace.
    cbn [or_else midnight year month day hour minute second microsecond].
    rewrite new_date_ok by assumption. cbn [bind].
    rewrite lt_midnight by assumption.
    cbn [_cmp midnight year month day]. rewrite !Z.compare_refl.
    reflexivity. }
  rewrite Et. cbn [bind].
  assert (Ea : AddressBook.adjust_to_monday (midnight y m d)
               = inr (midnight y m d)).
  { unfold AddressBook.adjust_to_monday. cbn [existsb].
    replace (weekday (midnight y m d) =? 5) with false
      by (symmetry; apply Z.eqb_neq; lia).
    replace (weekday (midnight y m d) =? 6) with false
      by (symmetry; apply Z.eqb_neq; lia).
    reflexivity. }
  rewrite Ea. cbn [bind].
  rewrite days_sub_midnight by assumption.
  unfold toordinal. cbn [midnight year month day at_midnight hour minute
                         second microsecond Z.eqb andb].
  replace (_ymd2ord y m d - _ymd2ord y m d - 0) with 0 by lia.
  reflexivity.
Qed.

Lemma birthday_today_after_midnight (today : datetime) (y0 : Z) :
  valid_date (year today) (month today) (day today) ->
  valid_time today -> at_midnight today = false ->
  AddressBook.this_or_next_year today (midnight y0 (month today) (day today))
  = new (year today + 1) (month today) (day today) 0 0 0 0.
Proof.
  intros Hv Hvt Hm. unfold AddressBook.this_or_next_year, replace.
  cbn [or_else midnight year month day hour minute second microsecond].
  rewrite new_date_ok by assumption. cbn [bind].
  rewrite lt_midnight by assumption.
  cbn [_cmp]. rewrite !Z.compare_refl, Hm. reflexivity.
Qed.

Lemma fold_loop_body_same_day {libc : CLib} (today1 today2 : datetime)
      (book : AddressBook.t) (acc : list AddressBook.entry) :
  same_date today1 today2 -> valid_time today1 -> valid_time today2 ->
  at_midnight today1 = at_midnight today2 ->
  fold_left (AddressBook.loop_body today1) book acc
  = fold_left (AddressBook.loop_body today2) book acc.
Proof.
  intros Hd Hv1 Hv2 Hm. revert acc.
  induction book as [|[name record] book IH]; intros acc; cbn [fold_left];
    [reflexivity|].
  assert (E : AddressBook.loop_body today1 acc (name, record)
              = AddressBook.loop_body today2 acc (name, record)).
  { unfold AddressBook.loop_body.
    destruct (Record.birthday record) as [b|]; [|reflexivity].
    rewrite (try_body_same_day today1 today2) by assumption. reflexivity. }
  rewrite E. apply IH.
Qed.

(** C4, as the code has it: the method takes no date from its caller.  A
    call takes one reading of the system clock and its result is the query
    at that reading; of the reading, only the date and whether the time of
    day is 00:00:00 sharp count.  So two calls on equal books, made when the
    clock reads the same date, both at midnight or both later (equal
    readings are such), return equal results, whatever else differs between
    the two clocks: the readings taken before, the readings to come. *)
Theorem get_upcoming_birthdays_reads_clock_once {libc : CLib}
        (book1 book2 : AddressBook.t) (clock1 clock2 : Clock) :
  book1 = book2 ->
  same_date (readings clock1 (taken clock1)) (readings clock2 (taken clock2)) ->
  valid_time (readings clock1 (taken clock1)) ->
  valid_time (readings clock2 (taken clock2)) ->
  at_midnight (readings clock1 (taken clock1))
  = at_midnight (readings clock2 (taken clock2)) ->
  fst (get_upcoming_birthdays_call book1 clock1)
  = fst (get_upcoming_birthdays_call book2 clock2)
  /\ fst (get_upcoming_birthdays_call book1 clock1)
     = AddressBook.get_upcoming_birthdays (readings clock1 (taken clock1)) book1
  /\ taken (snd (get_upcoming_birthdays_call book1 clock1)) = S (taken clock1)
  /\ readings (snd (get_upcoming_birthdays_call book1 clock1))
     = readings clock1.
Proof.
  intros -> Hd Hv1 Hv2 Hm.
  unfold get_upcoming_birthdays_call, datetime_today. cbn [fst snd taken readings].
  split; [|repeat split].
  unfold AddressBook.get_upcoming_birthdays.
  apply fold_loop_body_same_day; assumption.
Qed.

Lemma get_upcoming_birthdays_reads_clock_once_witness :
  [(str "Ann", contact "Ann" "2000-06-10"); (str "Bob", contact "Bob" "2000-06-12")]
  = AddressBook.add_record (contact "Bob" "2000-06-12")
      (AddressBook.add_record (contact "Ann" "2000-06-10") [])
  /\ same_date (readings clock_10h (taken clock_10h))
               (readings clock_end_of_day (taken clock_end_of_day))
  /\ valid_time (readings clock_10h (taken clock_10h))
  /\ valid_time (readings clock_end_of_day (taken clock_end_of_day))
  /\ at_midnight (readings clock_10h (taken clock_10h))
     = at_midnight (readings clock_end_of_day (taken clock_end_of_day))
  /\ fst (get_upcoming_birthdays_call (libc := glibc)
            [(str "Ann", contact "Ann" "2000-06-10");
             (str "Bob", contact "Bob" "2000-06-12")] clock_10h)
     = [AddressBook.mk_entry (str "Bob") (str "12.06.2000") 1]
  /\ fst (get_upcoming_birthdays_call (libc := glibc)
            [(str "Ann", contact "Ann" "2000-06-10");
             (str "Bob", contact "Bob" "2000-06-12")] clock_10h)
     = fst (get_upcoming_birthdays_call (libc := glibc)
              (AddressBook.add_record (contact "Bob" "2000-06-12")
                 (AddressBook.add_record (contact "Ann" "2000-06-10") []))
              clock_end_of_day).
Proof.
  assert (H1 : [(str "Ann", contact "Ann" "2000-06-10");
                (str "Bob", contact "Bob" "2000-06-12")]
               = AddressBook.add_record (contact "Bob" "2000-06-12")
                   (AddressBook.add_record (contact "Ann" "2000-06-10") []))
    by reflexivity.
  assert (H2 : same_date (readings clock_10h (taken clock_10h))
                         (readings clock_end_of_day (taken clock_end_of_day)))
    by (repeat split).
  assert (H3 : valid_time (readings clock_10h (taken clock_10h)))
    by (unfold valid_time; cbn; lia).
  assert (H4 : valid_time (readings clock_end_of_day (taken clock_end_of_day)))
    by (unfold valid_time; cbn; lia).
  assert (H5 : at_midnight (readings clock_10h (taken clock_10h))
               = at_midnight (readings clock_end_of_day
                                (taken clock_end_of_day))) by reflexivity.
  repeat (split; [assumption|]).
  split; [vm_compute; reflexivity|].
  exact (proj1 (get_upcoming_birthdays_reads_clock_once (libc := glibc)
                  _ _ clock_10h clock_end_of_day H1 H2 H3 H4 H5)).
Defined.

(** C4, as stated, fails: the result depends on a value that is no argument
    of the call.  The same book, queried at 00:00 and at 10:00 of the same
    day, gives two different lists. *)
Lemma get_upcoming_birthdays_depends_on_clock :
  AddressBook.get_upcoming_birthdays (libc := glibc) (midnight 2024 6 10)
    [(str "Ann", contact "Ann" "2000-06-10")]
  <> AddressBook.get_upcoming_birthdays (libc := glibc)
       (mk_datetime 2024 6 10 10 0 0 0)
       [(str "Ann", contact "Ann" "2000-06-10")].
Proof.
  vm_compute. discriminate.
Qed.

(** ** Strings: equality and [strip] *)

Lemma pystr_eqb_eq (s t : pystr) : PyStr.eqb s t = true <-> s = t.
Proof.
  revert t. induction s as [|c s IH]; intros [|d t]; simpl;
    try (split; [discriminate | discriminate]); [tauto|].
  rewrite andb_true_iff, Z.eqb_eq, IH. split.
  - intros [-> ->]. reflexivity.
  - intros [= -> ->]. auto.
Qed.

Lemma pystr_eqb_refl (s : pystr) : PyStr.eqb s s = true.
Proof. apply pystr_eqb_eq. reflexivity. Qed.

Lemma pystr_eqb_neq (s t : pystr) : PyStr.eqb s t = false <-> s <> t.
Proof.
  destruct (PyStr.eqb s t) eqn:E.
  - apply pystr_eqb_eq in E. split; [discriminate | contradiction].
  - split; [|reflexivity]. intros _ H. apply pystr_eqb_eq in H. congruence.
Qed.

(** What [dropwhile] returns starts with a character that does not satisfy
    the test, and is a suffix of the argument. *)
Lemma dropwhile_head (p : char -> bool) (s : pystr) (c : char) (t : pystr) :
  PyStr.dropwhile p s = c :: t -> p c = false.
Proof.
  induction s as [|a s IH]; simpl; [discriminate|].
  destruct (p a) eqn:E; [exact IH|]. intros [= <- <-]. exact E.
Qed.

Lemma dropwhile_suffix (p : char -> bool) (s : pystr) :
  exists pre, s = pre ++ PyStr.dropwhile p s.
Proof.
  induction s as [|a s [pre IH]]; simpl; [exists []; reflexivity|].
  destruct (p a).
  - exists (a :: pre). simpl. f_equal. exact IH.
  - exists []. reflexivity.
Qed.

Lemma dropwhile_fixed (p : char -> bool) (s : pystr) :
  match s with
  | [] => True
  | c :: _ => p c = false
  end ->
  PyStr.dropwhile p s = s.
Proof.
  destruct s as [|c s]; simpl; [reflexivity|]. intros ->. reflexivity.
Qed.

Lemma dropwhile_idem (p : char -> bool) (s : pystr) :
  PyStr.dropwhile p (PyStr.dropwhile p s) = PyStr.dropwhile p s.
Proof.
  apply dropwhile_fixed.
  destruct (PyStr.dropwhile p s) as [|c t] eqn:E; [exact I|].
  apply (dropwhile_head p s c t E).
Qed.

Lemma strip_by_head (p : char -> bool) (s : pystr) (c : char) (t : pystr) :
  PyStr.rstrip_by p (PyStr.lstrip_by p s) = c :: t -> p c = false.
Proof.
  unfold PyStr.rstrip_by, PyStr.lstrip_by. intros H.
  destruct (dropwhile_suffix p (rev (PyStr.dropwhile p s))) as [pre Hpre].
  apply (f_equal (@rev char)) in Hpre.
  rewrite rev_involutive, rev_app_distr, H in Hpre.
  simpl in Hpre. apply (dropwhile_head p s c _ Hpre).
Qed.

Lemma strip_by_idem (p : char -> bool) (s : pystr) :
  let t := PyStr.rstrip_by p (PyStr.lstrip_by p s) in
  PyStr.rstrip_by p (PyStr.lstrip_by p t) = t.
Proof.
  intros t. unfold PyStr.lstrip_by at 1.
  rewrite (dropwhile_fixed p t).
  - unfold t, PyStr.rstrip_by. rewrite rev_involutive, dropwhile_idem.
    reflexivity.
  - destruct t as [|c t'] eqn:E; [exact I|].
    apply (strip_by_head p s c t' E).
Qed.

Lemma strip_idem (s : pystr) : stripped (PyStr.strip s).
Proof. apply (strip_by_idem PyStr.isspace_char s). Qed.

(** A stripped string neither starts nor ends with whitespace. *)
Lemma stripped_ends (s : pystr) :
  stripped s ->
  (forall c t, s = c :: t -> PyStr.isspace_char c = false)
  /\ (forall c t, s = t ++ [c] -> PyStr.isspace_char c = false).
Proof.
  unfold stripped, PyStr.strip. intros H. split; intros c t E.
  - rewrite E in H. apply (strip_by_head _ _ _ _ H).
  - unfold PyStr.rstrip_by in H.
    apply (f_equal (@rev char)) in H. rewrite rev_involutive in H.
    rewrite E, rev_app_distr in H. simpl in H.
    apply (dropwhile_head _ _ _ _ H).
Qed.

(** ** The validated fields, once constructed *)

(** X1: A name that was constructed is not empty, has no whitespace at either
    end, and is accepted again, unchanged, by the constructor. *)
Theorem Name_init_stable (s : pystr) (n : Field.t) :
  Name.__init__ s = inr n ->
  Field.value n = PyStr.strip s
  /\ Field.value n <> []
  /\ stripped (Field.value n)
  /\ Name.__init__ (Field.value n) = inr n.
Proof.
  unfold Name.__init__. cbv zeta.
  destruct (PyStr.strip s) as [|c t] eqn:E; [discriminate|].
  intros [= <-]. cbn [Field.value].
  assert (Hs : stripped (c :: t)) by (rewrite <- E; apply strip_idem).
  repeat split; [discriminate | exact Hs |].
  unfold stripped in Hs. rewrite Hs. reflexivity.
Qed.

Lemma Name_init_stable_john :
  Name.__init__ (str "  John ") = inr (Field.mk (str "John"))
  /\ Field.value (Field.mk (str "John")) = PyStr.strip (str "  John ")
  /\ Field.value (Field.mk (str "John")) <> []
  /\ stripped (Field.value (Field.mk (str "John")))
  /\ Name.__init__ (Field.value (Field.mk (str "John")))
     = inr (Field.mk (str "John")).
Proof.
  assert (H : Name.__init__ (str "  John ") = inr (Field.mk (str "John")))
    by (vm_compute; reflexivity).
  split; [exact H|]. exact (Name_init_stable _ _ H).
Defined.

Lemma Phone_init_inr (s : pystr) (p : Field.t) :
  Phone.__init__ s = inr p ->
  p = Field.mk (PyStr.strip s) /\ phone_ok p = true.
Proof.
  unfold Phone.__init__, phone_ok. cbv zeta.
  destruct (PyStr.isdigit (PyStr.strip s) && (PyStr.len (PyStr.strip s) =? 10))
    eqn:E; cbn [negb]; [|discriminate].
  intros [= <-]. cbn [Field.value]. auto.
Qed.

(** X2: A phone that was constructed passes the constructor again, unchanged:
    what [add_phone] stores can be given back to [Phone]. *)
Theorem Phone_init_stable (s : pystr) (p : Field.t) :
  Phone.__init__ s = inr p ->
  phone_ok p = true /\ stripped (Field.value p) /\ Phone.__init__ (Field.value p) = inr p.
Proof.
  unfold Phone.__init__, phone_ok. cbv zeta.
  destruct (PyStr.isdigit (PyStr.strip s) && (PyStr.len (PyStr.strip s) =? 10))
    eqn:E; cbn [negb]; [|discriminate].
  intros [= <-]. cbn [Field.value].
  pose proof (strip_idem s) as Hs. unfold stripped in Hs.
  rewrite Hs, E. cbn [negb]. auto.
Qed.

Lemma Phone_init_stable_padded :
  Phone.__init__ (str " 1234567890 ") = inr (Field.mk (str "1234567890"))
  /\ phone_ok (Field.mk (str "1234567890")) = true
  /\ stripped (Field.value (Field.mk (str "1234567890")))
  /\ Phone.__init__ (Field.value (Field.mk (str "1234567890")))
     = inr (Field.mk (str "1234567890")).
Proof.
  assert (H : Phone.__init__ (str " 1234567890 ")
              = inr (Field.mk (str "1234567890")))
    by (vm_compute; reflexivity).
  split; [exact H|]. exact (Phone_init_stable _ _ H).
Defined.

(** X3: A birthday that was constructed passes the constructor again, unchanged,
    whatever form the first input had. *)
Theorem Birthday_init_stable {libc : CLib} (s : pystr) (b : Field.t) :
  Birthday.__init__ s = inr b -> Birthday.__init__ (Field.value b) = inr b.
Proof.
  intros H. destruct (Birthday_init_inr s b H) as (y & m & d & Hv & E & Hy).
  destruct b as [v]. cbn [Field.value] in *. subst v.
  apply Birthday_init_iso_ok; [exact Hv|].
  destruct strftime_pads_year; [left; reflexivity | right; auto].
Qed.

Lemma Birthday_init_stable_day_first :
  Birthday.__init__ (libc := glibc) (str "15.06.1990")
  = inr (Field.mk (str "1990-06-15"))
  /\ Birthday.__init__ (libc := glibc) (Field.value (Field.mk (str "1990-06-15")))
     = inr (Field.mk (str "1990-06-15")).
Proof.
  assert (H : Birthday.__init__ (libc := glibc) (str "15.06.1990")
              = inr (Field.mk (str "1990-06-15")))
    by (vm_compute; reflexivity).
  split; [exact H|]. exact (Birthday_init_stable (libc := glibc) _ _ H).
Defined.

(** ** How the constructor of [Birthday] fails *)

Lemma try_formats_inl {libc : CLib} (s : pystr) (formats : list pystr)
      (e : exn) :
  Birthday.try_formats s formats = inl e -> e = unable_to_parse.
Proof.
  induction formats as [|fmt formats IH]; simpl.
  - intros [= <-]. reflexivity.
  - destruct (strptime s fmt) as [[msg]|dt]; [exact IH | discriminate].
Qed.

(** X4: When no format parses, the constructor fails with "Unable to parse date
    format", raised outside its [try].  The message of its own handler,
    "Invalid birthday format...", comes out in one case only: the C library
    prints years without padding and the date that was parsed has a year
    below 1000, so that the text just printed is not read back. *)
Theorem Birthday_init_failure {libc : CLib} (s : pystr) (e : exn) :
  Birthday.__init__ s = inl e ->
  (e = unable_to_parse
   /\ Birthday._standardize_date_format (PyStr.strip s) = inl unable_to_parse)
  \/ (e = invalid_birthday_format
      /\ strftime_pads_year = false
      /\ exists y m d,
          valid_date y m d /\ y < 1000
          /\ Birthday._standardize_date_format (PyStr.strip s)
             = inr (dec y ++ ch "-" :: dec2 m ++ ch "-" :: dec2 d)).
Proof.
  unfold Birthday.__init__.
  destruct (Birthday._standardize_date_format (PyStr.strip s)) as [e'|v] eqn:Es;
    cbn [bind].
  - intros [= <-]. left. unfold Birthday._standardize_date_format in Es.
    apply try_formats_inl in Es. subst e'. auto.
  - unfold Birthday._standardize_date_format in Es.
    apply try_formats_inr in Es. destruct Es as (fmt & dt & _ & Hp & ->).
    apply strptime_inr in Hp. destruct Hp as (Hv & Hdt).
    destruct dt as [y m d H M S us]. cbn [year month day] in Hv.
    rewrite strftime_Ymd. cbn [year month day].
    destruct strftime_pads_year eqn:Epad.
    + change (dec4 y ++ ch "-" :: dec2 m ++ ch "-" :: dec2 d)
        with (iso_form y m d).
      rewrite strptime_iso by assumption. discriminate.
    + destruct (Z_lt_ge_dec y 1000) as [Hlt|Hge].
      * destruct (strptime _ _) as [[msg]|dt']; [|discriminate].
        intros [= <-]. right. repeat split. exists y, m, d. auto.
      * rewrite dec_four_digits by (unfold valid_date in Hv; lia).
        change (dec4 y ++ ch "-" :: dec2 m ++ ch "-" :: dec2 d)
          with (iso_form y m d).
        rewrite strptime_iso by assumption. discriminate.
Qed.

Lemma Birthday_init_failure_invalid_date :
  Birthday.__init__ (libc := glibc) (str "invalid-date") = inl unable_to_parse
  /\ ((unable_to_parse = unable_to_parse
       /\ Birthday._standardize_date_format (libc := glibc)
            (PyStr.strip (str "invalid-date")) = inl unable_to_parse)
      \/ (unable_to_parse = invalid_birthday_format
          /\ @strftime_pads_year glibc = false
          /\ exists y m d,
              valid_date y m d /\ y < 1000
              /\ Birthday._standardize_date_format (libc := glibc)
                   (PyStr.strip (str "invalid-date"))
                 = inr (dec y ++ ch "-" :: dec2 m ++ ch "-" :: dec2 d))).
Proof.
  assert (H : Birthday.__init__ (libc := glibc) (str "invalid-date")
              = inl unable_to_parse) by (vm_compute; reflexivity).
  split; [exact H|].
  exact (Birthday_init_failure (libc := glibc) _ _ H).
Defined.

Lemma sub_runs_all (cls : char -> bool) (repl s : pystr) (in_run : bool) :
  forallb cls s = true ->
  PyRe.sub_runs cls repl in_run s
  = match s with
    | [] => []
    | _ :: _ => if in_run then [] else repl
    end.
Proof.
  revert in_run. induction s as [|c s IH]; intros in_run; simpl;
    [reflexivity|].
  intros H. apply andb_true_iff in H. destruct H as [Hc Hs].
  rewrite Hc, (IH true Hs).
  destruct s; destruct in_run; simpl; rewrite ?app_nil_r; reflexivity.
Qed.

(** X5: An empty input, or one made of blanks and delimiters only, is rejected:
    nothing is left to parse once the delimiters are replaced and the dashes
    at both ends removed. *)
Theorem Birthday_init_blank {libc : CLib} (s : pystr) :
  forallb Birthday.is_delimiter (PyStr.strip s) = true ->
  Birthday.__init__ s = inl unable_to_parse.
Proof.
  intros H. unfold Birthday.__init__, Birthday._standardize_date_format,
              PyRe.sub_class_plus.
  rewrite (sub_runs_all _ _ _ false H).
  destruct (PyStr.strip s); reflexivity.
Qed.

Lemma Birthday_init_blank_witness :
  forallb Birthday.is_delimiter (PyStr.strip (str "  ./ - ")) = true
  /\ Birthday.__init__ (libc := glibc) (str "  ./ - ") = inl unable_to_parse.
Proof.
  assert (H : forallb Birthday.is_delimiter (PyStr.strip (str "  ./ - ")) = true)
    by (vm_compute; reflexivity).
  split; [exact H|]. exact (Birthday_init_blank (libc := glibc) _ H).
Defined.

(** ** The phones of a record *)

Lemma find_from_shift (v : pystr) (l : list Field.t) (k i : nat) :
  Record.find_from v l k = Some i <->
  exists j, i = (k + j)%nat /\ Record.find_from v l 0 = Some j.
Proof.
  revert k i. induction l as [|p l IH]; intros k i; simpl.
  - split; [discriminate | intros (j & _ & H); discriminate].
  - destruct (PyStr.eqb (Field.value p) v).
    + split.
      * intros [= <-]. exists 0%nat. split; [lia | reflexivity].
      * intros (j & -> & [= <-]). f_equal. lia.
    + rewrite IH. split.
      * intros (j & -> & Hj). exists (S j). split; [lia|].
        apply IH. exists j. auto.
      * intros (j & -> & Hj). apply IH in Hj. destruct Hj as (j' & -> & Hj').
        exists j'. split; [lia | exact Hj'].
Qed.

(** [find_from] returns the position of the first phone with the value. *)
Lemma find_from_first (v : pystr) (l1 l2 : list Field.t) (p : Field.t) :
  Field.value p = v ->
  Forall (fun q => Field.value q <> v) l1 ->
  Record.find_from v (l1 ++ p :: l2) 0 = Some (List.length l1).
Proof.
  intros Hp Hl. induction Hl as [|q l1 Hq Hl IH]; simpl.
  - rewrite Hp, pystr_eqb_refl. reflexivity.
  - replace (PyStr.eqb (Field.value q) v) with false
      by (symmetry; apply pystr_eqb_neq; exact Hq).
    apply find_from_shift. exists (List.length l1). split; [lia | exact IH].
Qed.

Lemma find_from_split (v : pystr) (l : list Field.t) (i : nat) :
  Record.find_from v l 0 = Some i ->
  exists l1 p l2,
    l = l1 ++ p :: l2 /\ List.length l1 = i /\ Field.value p = v
    /\ Forall (fun q => Field.value q <> v) l1.
Proof.
  revert i. induction l as [|q l IH]; intros i; simpl; [discriminate|].
  destruct (PyStr.eqb (Field.value q) v) eqn:E.
  - intros [= <-]. apply pystr_eqb_eq in E.
    exists [], q, l. auto.
  - intros H. apply find_from_shift in H. destruct H as (j & -> & Hj).
    destruct (IH j Hj) as (l1 & p & l2 & -> & <- & Hp & Hl).
    exists (q :: l1), p, l2. repeat split; auto.
    constructor; [apply pystr_eqb_neq; exact E | exact Hl].
Qed.

Lemma set_value_at (l1 l2 : list Field.t) (p : Field.t) (v : pystr) :
  Record.set_value (List.length l1) v (l1 ++ p :: l2) = l1 ++ Field.mk v :: l2.
Proof.
  induction l1 as [|q l1 IH]; simpl; [reflexivity|]. rewrite IH. reflexivity.
Qed.

(** X6: [find_phone] finds the first phone that has the value, and reports
    nothing exactly when no phone has it. *)
Theorem find_phone_first (v : pystr) (self : Record.t) :
  (forall i, Record.find_phone v self = Some i ->
             exists l1 p l2,
               Record.phones self = l1 ++ p :: l2 /\ List.length l1 = i
               /\ Field.value p = v
               /\ Forall (fun q => Field.value q <> v) l1)
  /\ (Record.find_phone v self = None <->
      Forall (fun q => Field.value q <> v) (Record.phones self)).
Proof.
  split.
  - intros i. apply find_from_split.
  - unfold Record.find_phone. rewrite find_from_none, Forall_forall.
    split; intros H p Hp; apply pystr_eqb_neq, H, Hp.
Qed.

(** X7: [edit_phone] changes the first phone whose value is [old_phone], and
    nothing else: the phones before it, the phones after it (another phone
    with the same value among them stays), the name and the birthday. *)
Theorem edit_phone_first_only (old_phone new_phone : pystr) (self : Record.t)
        (l1 l2 : list Field.t) (p : Field.t) :
  Record.phones self = l1 ++ p :: l2 ->
  Field.value p = old_phone ->
  Forall (fun q => Field.value q <> old_phone) l1 ->
  Record.edit_phone old_phone new_phone self
  = (inr tt,
     Record.mk (Record.name self) (l1 ++ Field.mk new_phone :: l2)
               (Record.birthday self)).
Proof.
  intros E Hp Hl. unfold Record.edit_phone, Record.find_phone.
  rewrite E, (find_from_first old_phone l1 l2 p Hp Hl), set_value_at.
  reflexivity.
Qed.

Lemma edit_phone_first_only_duplicate :
  Record.phones (Record.mk (Field.mk (str "John"))
                   [Field.mk (str "5555555555"); Field.mk (str "1234567890");
                    Field.mk (str "1234567890")] None)
  = [Field.mk (str "5555555555")] ++ Field.mk (str "1234567890")
      :: [Field.mk (str "1234567890")]
  /\ Field.value (Field.mk (str "1234567890")) = str "1234567890"
  /\ Forall (fun q => Field.value q <> str "1234567890")
            [Field.mk (str "5555555555")]
  /\ Record.edit_phone (str "1234567890") (str "1112223333")
       (Record.mk (Field.mk (str "John"))
          [Field.mk (str "5555555555"); Field.mk (str "1234567890");
           Field.mk (str "1234567890")] None)
     = (inr tt,
        Record.mk (Field.mk (str "John"))
          ([Field.mk (str "5555555555")] ++ Field.mk (str "1112223333")
             :: [Field.mk (str "1234567890")]) None).
Proof.
  assert (H3 : Forall (fun q => Field.value q <> str "1234567890")
                      [Field.mk (str "5555555555")])
    by (repeat constructor; vm_compute; discriminate).
  split; [reflexivity|]. split; [reflexivity|]. split; [exact H3|].
  exact (edit_phone_first_only (str "1234567890") (str "1112223333")
           (Record.mk (Field.mk (str "John"))
              [Field.mk (str "5555555555"); Field.mk (str "1234567890");
               Field.mk (str "1234567890")] None)
           [Field.mk (str "5555555555")] [Field.mk (str "1234567890")]
           (Field.mk (str "1234567890")) eq_refl eq_refl H3).
Defined.

(** X8: A phone that [add_phone] accepted is stored last, trimmed, and
    [find_phone] finds a phone with that trimmed value; the text as typed is
    found only if it had no blanks around it. *)
Theorem add_phone_then_find (raw : pystr) (self self' : Record.t) :
  Record.add_phone raw self = (inr tt, self') ->
  Record.phones self' = Record.phones self ++ [Field.mk (PyStr.strip raw)]
  /\ Record.name self' = Record.name self
  /\ Record.birthday self' = Record.birthday self
  /\ exists i p,
      Record.find_phone (PyStr.strip raw) self' = Some i
      /\ nth_error (Record.phones self') i = Some p
      /\ Field.value p = PyStr.strip raw.
Proof.
  unfold Record.add_phone.
  destruct (Phone.__init__ raw) as [e|p] eqn:E; [discriminate|].
  intros [= <-]. cbn [Record.phones Record.name Record.birthday].
  apply Phone_init_inr in E. destruct E as [-> _]. repeat split.
  destruct (Record.find_from (PyStr.strip raw)
              (Record.phones self ++ [Field.mk (PyStr.strip raw)]) 0)
    as [i|] eqn:Ef.
  - destruct (find_from_split _ _ i Ef) as (l1 & p & l2 & El & <- & Hp & _).
    exists (List.length l1), p. unfold Record.find_phone.
    cbn [Record.phones]. rewrite Ef, El.
    split; [reflexivity|]. split; [|exact Hp].
    rewrite nth_error_app2, Nat.sub_diag by lia. reflexivity.
  - rewrite find_from_none in Ef.
    specialize (Ef (Field.mk (PyStr.strip raw))).
    rewrite pystr_eqb_refl in Ef.
    assert (true = false) by (apply Ef, in_or_app; right; left; reflexivity).
    discriminate.
Qed.

Lemma add_phone_then_find_padded :
  Record.add_phone (str " 1112223333 ") john_1990
  = (inr tt,
     Record.mk (Field.mk (str "John"))
               [Field.mk (str "1234567890"); Field.mk (str "5555555555");
                Field.mk (str "1112223333")]
               (Some (Field.mk (str "1990-06-15"))))
  /\ Record.find_phone (str " 1112223333 ")
       (Record.mk (Field.mk (str "John"))
               [Field.mk (str "1234567890"); Field.mk (str "5555555555");
                Field.mk (str "1112223333")]
               (Some (Field.mk (str "1990-06-15")))) = None
  /\ exists i p,
      Record.find_phone (PyStr.strip (str " 1112223333 "))
        (Record.mk (Field.mk (str "John"))
               [Field.mk (str "1234567890"); Field.mk (str "5555555555");
                Field.mk (str "1112223333")]
               (Some (Field.mk (str "1990-06-15")))) = Some i
      /\ nth_error [Field.mk (str "1234567890"); Field.mk (str "5555555555");
                    Field.mk (str "1112223333")] i = Some p
      /\ Field.value p = PyStr.strip (str " 1112223333 ").
Proof.
  assert (H : Record.add_phone (str " 1112223333 ") john_1990
              = (inr tt,
                 Record.mk (Field.mk (str "John"))
                   [Field.mk (str "1234567890"); Field.mk (str "5555555555");
                    Field.mk (str "1112223333")]
                   (Some (Field.mk (str "1990-06-15")))))
    by (vm_compute; reflexivity).
  split; [exact H|]. split; [vm_compute; reflexivity|].
  exact (proj2 (proj2 (proj2 (add_phone_then_find _ _ _ H)))).
Defined.

(** X9: The phones of a record that was created by the constructor, and then
    went through [add_phone], [remove_phone] and [add_birthday], whether they
    succeeded or not, all pass the test of [Phone]; [edit_phone] keeps this
    only for a new value that passes the test itself. *)
Theorem phones_stay_valid {libc : CLib} (self : Record.t) :
  forallb phone_ok (Record.phones self) = true ->
  (forall raw,
      forallb phone_ok (Record.phones (snd (Record.add_phone raw self))) = true)
  /\ (forall v,
         forallb phone_ok (Record.phones (Record.remove_phone v self)) = true)
  /\ (forall raw,
         forallb phone_ok (Record.phones (snd (Record.add_birthday raw self)))
         = true)
  /\ (forall old_phone new_phone,
         phone_ok (Field.mk new_phone) = true ->
         forallb phone_ok
                 (Record.phones (snd (Record.edit_phone old_phone new_phone self)))
         = true).
Proof.
  intros H. repeat split.
  - intros raw. unfold Record.add_phone.
    destruct (Phone.__init__ raw) as [e|p] eqn:E; cbn; [exact H|].
    apply Phone_init_inr in E. destruct E as [_ Hp].
    rewrite forallb_app, H. cbn. rewrite Hp. reflexivity.
  - intros v. cbn [Record.remove_phone Record.phones].
    rewrite forallb_forall in *. intros p Hp.
    apply filter_In in Hp. apply H, Hp.
  - intros raw. unfold Record.add_birthday.
    destruct (Birthday.__init__ raw); exact H.
  - intros old_phone new_phone Hn. unfold Record.edit_phone, Record.find_phone.
    destruct (Record.find_from old_phone (Record.phones self) 0) as [i|] eqn:Ef;
      cbn [snd Record.phones]; [|exact H].
    destruct (find_from_split _ _ i Ef) as (l1 & p & l2 & El & <- & _ & _).
    rewrite El in *. rewrite set_value_at.
    rewrite forallb_app in *. cbn [forallb] in *.
    apply andb_true_iff in H. destruct H as [H1 H2].
    apply andb_true_iff in H2. destruct H2 as [_ H2].
    rewrite H1, Hn, H2. reflexivity.
Qed.

Lemma phones_stay_valid_john :
  forallb phone_ok (Record.phones john_1990) = true
  /\ forallb phone_ok
       (Record.phones (snd (Record.add_phone (str "12345") john_1990))) = true
  /\ forallb phone_ok
       (Record.phones (Record.remove_phone (str "1234567890") john_1990)) = true.
Proof.
  assert (H : forallb phone_ok (Record.phones john_1990) = true)
    by (vm_compute; reflexivity).
  split; [exact H|].
  pose proof (phones_stay_valid (libc := glibc) john_1990 H) as (H1 & H2 & _).
  split; [apply H1 | apply H2].
Defined.

Lemma add_then_remove_phone (raw : pystr) (self self' : Record.t) :
  Record.find_phone (PyStr.strip raw) self = None ->
  Record.add_phone raw self = (inr tt, self') ->
  Record.remove_phone (PyStr.strip raw) self' = self.
Proof.
  intros Hf. unfold Record.add_phone.
  destruct (Phone.__init__ raw) as [e|p] eqn:E; [discriminate|].
  intros [= <-]. apply Phone_init_inr in E. destruct E as [-> _].
  unfold Record.find_phone in Hf. rewrite find_from_none in Hf.
  destruct self as [n ps b]. unfold Record.remove_phone.
  cbn [Record.name Record.phones Record.birthday] in *. f_equal.
  rewrite filter_app. cbn [filter Field.value].
  rewrite pystr_eqb_refl. cbn [negb]. rewrite app_nil_r.
  induction ps as [|p ps IH]; simpl; [reflexivity|].
  rewrite (Hf p) by (left; reflexivity). simpl. f_equal.
  apply IH. intros q Hq. apply Hf. right. exact Hq.
Qed.

(** X10: [remove_phone] removes every phone with the value, keeps the others in
    their order, and leaves a record that has no such phone as it is;
    removing a phone just added, that the record did not have, gives the
    record back. *)
Theorem remove_phone_all (v : pystr) (self : Record.t) :
  Record.find_phone v (Record.remove_phone v self) = None
  /\ (forall p, In p (Record.phones (Record.remove_phone v self)) <->
                In p (Record.phones self) /\ Field.value p <> v)
  /\ (Record.find_phone v self = None -> Record.remove_phone v self = self)
  /\ Record.remove_phone v (Record.remove_phone v self)
     = Record.remove_phone v self
  /\ (forall raw self',
         PyStr.strip raw = v ->
         Record.find_phone v self = None ->
         Record.add_phone raw self = (inr tt, self') ->
         Record.remove_phone v self' = self).
Proof.
  assert (Hin : forall p, In p (Record.phones (Record.remove_phone v self)) <->
                          In p (Record.phones self) /\ Field.value p <> v).
  { intros p. cbn [Record.remove_phone Record.phones].
    rewrite filter_In, negb_true_iff, pystr_eqb_neq. reflexivity. }
  assert (Hid : forall r, Record.find_phone v r = None ->
                          Record.remove_phone v r = r).
  { intros r Hf. unfold Record.find_phone in Hf. rewrite find_from_none in Hf.
    destruct r as [n ps b]. unfold Record.remove_phone.
    cbn [Record.name Record.phones Record.birthday] in *. f_equal.
    induction ps as [|p ps IH]; simpl; [reflexivity|].
    rewrite (Hf p) by (left; reflexivity). simpl. f_equal.
    apply IH. intros q Hq. apply Hf. right. exact Hq. }
  assert (Hnone : Record.find_phone v (Record.remove_phone v self) = None).
  { unfold Record.find_phone. apply find_from_none. intros p Hp.
    apply Hin in Hp. apply pystr_eqb_neq, Hp. }
  split; [exact Hnone|]. split; [exact Hin|]. split; [apply Hid|].
  split; [apply Hid, Hnone|].
  intros raw self' <- Hf Ha. apply (add_then_remove_phone raw); assumption.
Qed.


(** ** The book as a dictionary *)

Lemma find_setitem_same (k : pystr) (v : Record.t) (book : AddressBook.t) :
  AddressBook.find k (AddressBook.setitem k v book) = Some v.
Proof.
  induction book as [|[k' w] book IH]; simpl.
  - rewrite pystr_eqb_refl. reflexivity.
  - destruct (PyStr.eqb k' k) eqn:E; simpl; rewrite E; [reflexivity | exact IH].
Qed.

Lemma find_setitem_other (k k' : pystr) (v : Record.t) (book : AddressBook.t) :
  k' <> k ->
  AddressBook.find k' (AddressBook.setitem k v book) = AddressBook.find k' book.
Proof.
  intros Hk. induction book as [|[k0 w] book IH]; simpl.
  - replace (PyStr.eqb k k') with false
      by (symmetry; apply pystr_eqb_neq; congruence).
    reflexivity.
  - destruct (PyStr.eqb k0 k) eqn:E; simpl.
    + apply pystr_eqb_eq in E. subst k0.
      replace (PyStr.eqb k k') with false
        by (symmetry; apply pystr_eqb_neq; congruence).
      reflexivity.
    + destruct (PyStr.eqb k0 k'); [reflexivity | exact IH].
Qed.

Lemma find_none_keys (k : pystr) (book : AddressBook.t) :
  AddressBook.find k book = None <-> ~ In k (map fst book).
Proof.
  induction book as [|[k0 w] book IH]; simpl; [tauto|].
  destruct (PyStr.eqb k0 k) eqn:E.
  - apply pystr_eqb_eq in E. split; [discriminate | intros H; tauto].
  - apply pystr_eqb_neq in E. rewrite IH. tauto.
Qed.

Lemma setitem_new (k : pystr) (v : Record.t) (book : AddressBook.t) :
  AddressBook.find k book = None ->
  AddressBook.setitem k v book = book ++ [(k, v)].
Proof.
  induction book as [|[k0 w] book IH]; simpl; [reflexivity|].
  destruct (PyStr.eqb k0 k); [discriminate|].
  intros H. rewrite (IH H). reflexivity.
Qed.

Lemma setitem_keys (k : pystr) (v w : Record.t) (book : AddressBook.t) :
  AddressBook.find k book = Some w ->
  map fst (AddressBook.setitem k v book) = map fst book.
Proof.
  induction book as [|[k0 w0] book IH]; simpl; [discriminate|].
  destruct (PyStr.eqb k0 k); simpl; [reflexivity|].
  intros H. rewrite (IH H). reflexivity.
Qed.

Lemma setitem_same (k : pystr) (v : Record.t) (book : AddressBook.t) :
  AddressBook.find k book = Some v -> AddressBook.setitem k v book = book.
Proof.
  induction book as [|[k0 w0] book IH]; simpl; [discriminate|].
  destruct (PyStr.eqb k0 k).
  - intros [= ->]. reflexivity.
  - intros H. rewrite (IH H). reflexivity.
Qed.

Lemma setitem_setitem (k : pystr) (v1 v2 : Record.t) (book : AddressBook.t) :
  AddressBook.setitem k v2 (AddressBook.setitem k v1 book)
  = AddressBook.setitem k v2 book.
Proof.
  induction book as [|[k0 w0] book IH]; simpl.
  - rewrite pystr_eqb_refl. reflexivity.
  - destruct (PyStr.eqb k0 k) eqn:E; simpl; rewrite E; [reflexivity|].
    rewrite IH. reflexivity.
Qed.

Lemma delete_absent (k : pystr) (book : AddressBook.t) :
  AddressBook.find k book = None -> AddressBook.delete k book = book.
Proof.
  unfold AddressBook.delete.
  induction book as [|[k0 w0] book IH]; simpl; [reflexivity|].
  destruct (PyStr.eqb k0 k); [discriminate|].
  intros H. simpl. rewrite (IH H). reflexivity.
Qed.

Lemma find_delete_same (k : pystr) (book : AddressBook.t) :
  AddressBook.find k (AddressBook.delete k book) = None.
Proof.
  unfold AddressBook.delete.
  induction book as [|[k0 w0] book IH]; simpl; [reflexivity|].
  destruct (PyStr.eqb k0 k) eqn:E; simpl; [exact IH|].
  rewrite E. exact IH.
Qed.

Lemma find_delete_other (k k' : pystr) (book : AddressBook.t) :
  k' <> k ->
  AddressBook.find k' (AddressBook.delete k book) = AddressBook.find k' book.
Proof.
  intros Hk. unfold AddressBook.delete.
  induction book as [|[k0 w0] book IH]; simpl; [reflexivity|].
  destruct (PyStr.eqb k0 k) eqn:E; simpl.
  - apply pystr_eqb_eq in E. subst k0.
    replace (PyStr.eqb k k') with false
      by (symmetry; apply pystr_eqb_neq; congruence).
    exact IH.
  - destruct (PyStr.eqb k0 k'); [reflexivity | exact IH].
Qed.

Lemma well_formed_setitem (k : pystr) (v : Record.t) (book : AddressBook.t) :
  k = Field.value (Record.name v) -> well_formed book ->
  well_formed (AddressBook.setitem k v book).
Proof.
  intros Hk [Hnd Hall]. split.
  - destruct (AddressBook.find k book) as [w|] eqn:E.
    + rewrite (setitem_keys k v w book E). exact Hnd.
    + rewrite (setitem_new k v book E), map_app. simpl.
      apply NoDup_app_remove_l with (l := []). simpl.
      apply find_none_keys in E. clear Hall.
      induction (map fst book) as [|a l IH]; simpl.
      * constructor; [intros [] | constructor].
      * inversion_clear Hnd as [|? ? Ha Hl]. constructor.
        -- rewrite in_app_iff. simpl. intros [H|[H|[]]]; [tauto|].
           apply E. left. congruence.
        -- apply IH; [exact Hl|]. intros H. apply E. right. exact H.
  - clear Hnd. induction book as [|[k0 w0] book IH]; simpl.
    + constructor; [exact Hk | constructor].
    + inversion_clear Hall as [|? ? H0 Hrest].
      destruct (PyStr.eqb k0 k) eqn:E.
      * apply pystr_eqb_eq in E. subst k0. constructor; [exact Hk | exact Hrest].
      * constructor; [exact H0 | apply IH; exact Hrest].
Qed.

Lemma well_formed_delete (k : pystr) (book : AddressBook.t) :
  well_formed book -> well_formed (AddressBook.delete k book).
Proof.
  intros [Hnd Hall]. unfold AddressBook.delete. split.
  - induction book as [|[k0 w0] book IH]; simpl; [constructor|].
    simpl in Hnd. inversion_clear Hnd as [|? ? Ha Hl].
    inversion_clear Hall as [|? ? H0 Hrest].
    destruct (PyStr.eqb k0 k); simpl; [apply IH; assumption|].
    constructor; [|apply IH; assumption].
    intros H. apply Ha. apply in_map_iff in H.
    destruct H as (x & Hx & Hin). apply filter_In in Hin.
    apply in_map_iff. exists x. tauto.
  - apply Forall_forall. intros x Hx. apply filter_In in Hx.
    rewrite Forall_forall in Hall. apply Hall, Hx.
Qed.

(** X11: A record that was added is found under its name, and the other names
    still lead to what they led to. *)
Theorem add_record_then_find (record : Record.t) (book : AddressBook.t) :
  AddressBook.find (Field.value (Record.name record))
                   (AddressBook.add_record record book) = Some record
  /\ forall name, name <> Field.value (Record.name record) ->
                  AddressBook.find name (AddressBook.add_record record book)
                  = AddressBook.find name book.
Proof.
  split; [apply find_setitem_same|].
  intros name Hn. apply find_setitem_other. exact Hn.
Qed.

(** X12: Adding a record under a name that the book has replaces the old record
    whole, in the place it had; under a new name the record goes last.
    Adding twice under one name leaves only the second record. *)
Theorem add_record_overwrites (r1 r2 : Record.t) (book : AddressBook.t) :
  Field.value (Record.name r1) = Field.value (Record.name r2) ->
  AddressBook.add_record r2 (AddressBook.add_record r1 book)
  = AddressBook.add_record r2 book
  /\ (forall old,
         AddressBook.find (Field.value (Record.name r2)) book = Some old ->
         map fst (AddressBook.add_record r2 book) = map fst book)
  /\ (AddressBook.find (Field.value (Record.name r2)) book = None ->
      AddressBook.add_record r2 book
      = book ++ [(Field.value (Record.name r2), r2)]).
Proof.
  intros E. unfold AddressBook.add_record. rewrite E.
  split; [apply setitem_setitem|]. split.
  - intros old H. apply (setitem_keys _ _ old). exact H.
  - apply setitem_new.
Qed.

Lemma add_record_overwrites_ann :
  Field.value (Record.name (contact "Ann" "1990-11-30"))
  = Field.value (Record.name (contact "Ann" "2000-06-10"))
  /\ AddressBook.add_record (contact "Ann" "2000-06-10")
       (AddressBook.add_record (contact "Ann" "1990-11-30")
          [(str "Bob", contact "Bob" "2000-06-12")])
     = [(str "Bob", contact "Bob" "2000-06-12");
        (str "Ann", contact "Ann" "2000-06-10")].
Proof.
  split; [reflexivity|].
  rewrite (proj1 (add_record_overwrites (contact "Ann" "1990-11-30")
                    (contact "Ann" "2000-06-10")
                    [(str "Bob", contact "Bob" "2000-06-12")] eq_refl)).
  reflexivity.
Defined.

Lemma add_record_then_delete (record : Record.t) (book : AddressBook.t) :
  AddressBook.find (Field.value (Record.name record)) book = None ->
  AddressBook.delete (Field.value (Record.name record))
                     (AddressBook.add_record record book) = book.
Proof.
  intros H. unfold AddressBook.add_record. rewrite (setitem_new _ _ _ H).
  unfold AddressBook.delete. rewrite filter_app. simpl.
  rewrite pystr_eqb_refl. simpl. rewrite app_nil_r.
  apply delete_absent. exact H.
Qed.

(** X13: After [delete] the name is not found, the other names are found as
    before, and deleting a name that the book does not have changes
    nothing; deleting a record just added under a new name gives the book
    back. *)
Theorem delete_then_find (name : pystr) (book : AddressBook.t) :
  AddressBook.find name (AddressBook.delete name book) = None
  /\ (forall other, other <> name ->
                    AddressBook.find other (AddressBook.delete name book)
                    = AddressBook.find other book)
  /\ (AddressBook.find name book = None -> AddressBook.delete name book = book)
  /\ (forall record,
         Field.value (Record.name record) = name ->
         AddressBook.find name book = None ->
         AddressBook.delete name (AddressBook.add_record record book) = book).
Proof.
  split; [apply find_delete_same|]. split; [|split].
  - intros other H. apply find_delete_other. exact H.
  - apply delete_absent.
  - intros record <- H. apply add_record_then_delete. exact H.
Qed.

(** X14: The empty book is a dictionary in which every record is under its name,
    and [add_record] and [delete] keep it so. *)
Theorem book_stays_well_formed (book : AddressBook.t) :
  well_formed book ->
  (forall record, well_formed (AddressBook.add_record record book))
  /\ (forall name, well_formed (AddressBook.delete name book)).
Proof.
  intros H. split.
  - intros record. apply well_formed_setitem; [reflexivity | exact H].
  - intros name. apply well_formed_delete. exact H.
Qed.

Lemma well_formed_nil : well_formed [].
Proof. split; constructor. Qed.

Lemma book_stays_well_formed_bob :
  well_formed []
  /\ well_formed (AddressBook.delete (str "Ann")
                    (AddressBook.add_record (contact "Bob" "2000-06-12") [])).
Proof.
  split; [exact well_formed_nil|].
  apply (book_stays_well_formed _
           (proj1 (book_stays_well_formed [] well_formed_nil) _)).
Defined.

(** ** The query, contact by contact *)

Lemma loop_body_acc {libc : CLib} (today : datetime)
      (acc : list AddressBook.entry) (item : pystr * Record.t) :
  AddressBook.loop_body today acc item
  = acc ++ AddressBook.loop_body today [] item.
Proof.
  unfold AddressBook.loop_body. destruct item as [name record].
  destruct (Record.birthday record) as [b|]; [|rewrite app_nil_r; reflexivity].
  destruct (AddressBook.try_body today name record b) as [[msg]|[e|]];
    rewrite ?app_nil_r; reflexivity.
Qed.

Lemma fold_loop_body_acc {libc : CLib} (today : datetime)
      (book : AddressBook.t) (acc : list AddressBook.entry) :
  fold_left (AddressBook.loop_body today) book acc
  = acc ++ fold_left (AddressBook.loop_body today) book [].
Proof.
  revert acc. induction book as [|item book IH]; intros acc; cbn [fold_left].
  - rewrite app_nil_r. reflexivity.
  - rewrite (IH (AddressBook.loop_body today acc item)),
      (IH (AddressBook.loop_body today [] item)), loop_body_acc, app_assoc.
    reflexivity.
Qed.

Lemma get_upcoming_birthdays_cons {libc : CLib} (today : datetime)
      (item : pystr * Record.t) (book : AddressBook.t) :
  AddressBook.get_upcoming_birthdays today (item :: book)
  = AddressBook.get_upcoming_birthdays today [item]
      ++ AddressBook.get_upcoming_birthdays today book.
Proof.
  unfold AddressBook.get_upcoming_birthdays. cbn [fold_left].
  apply fold_loop_body_acc.
Qed.

(** The result for a book made of two parts is the result for the first
    part followed by the result for the second. *)
Theorem get_upcoming_birthdays_concat {libc : CLib} (today : datetime)
        (book1 book2 : AddressBook.t) :
  AddressBook.get_upcoming_birthdays today (book1 ++ book2)
  = AddressBook.get_upcoming_birthdays today book1
      ++ AddressBook.get_upcoming_birthdays today book2.
Proof.
  unfold AddressBook.get_upcoming_birthdays.
  rewrite fold_left_app. apply fold_loop_body_acc.
Qed.

Lemma get_upcoming_birthdays_one {libc : CLib} (today : datetime)
      (name : pystr) (record : Record.t) (e : AddressBook.entry) :
  In e (AddressBook.get_upcoming_birthdays today [(name, record)]) ->
  AddressBook.get_upcoming_birthdays today [(name, record)] = [e]
  /\ exists b birthday,
      Record.birthday record = Some b
      /\ strptime (Field.value b) (str "%Y-%m-%d") = inr birthday
      /\ e = AddressBook.mk_entry name (Birthday.display_format b)
                                  (AddressBook.days_until e)
      /\ 0 <= AddressBook.days_until e <= 7.
Proof.
  unfold AddressBook.get_upcoming_birthdays. cbn [fold_left].
  unfold AddressBook.loop_body.
  destruct (Record.birthday record) as [b|]; [|intros []].
  destruct (AddressBook.try_body today name record b) as [[msg]|[e'|]] eqn:E;
    cbn [app In]; [intros [] | | intros []].
  intros [<-|[]]. split; [reflexivity|].
  unfold AddressBook.try_body in E.
  destruct (strptime (Field.value b) (str "%Y-%m-%d")) as [[msg]|bd] eqn:Ep;
    cbn [bind] in E; [discriminate|].
  destruct (AddressBook.this_or_next_year today bd) as [[msg]|nb];
    cbn [bind] in E; [discriminate|].
  destruct (AddressBook.adjust_to_monday nb) as [[msg]|nb'];
    cbn [bind] in E; [discriminate|].
  destruct ((0 <=? days (sub nb' today)) && (days (sub nb' today) <=? 7))
    eqn:Ew; [|discriminate].
  injection E as <-. cbn [AddressBook.days_until].
  apply andb_true_iff in Ew. rewrite !Z.leb_le in Ew.
  exists b, bd. repeat split; auto; apply Ew.
Qed.

(** X15: The result follows the order of the book: it is made, contact after
    contact, of at most one entry, which bears the key of the contact. *)
Theorem result_follows_book_order {libc : CLib} (today : datetime)
        (book : AddressBook.t) :
  AddressBook.get_upcoming_birthdays today book
  = flat_map (fun item => AddressBook.get_upcoming_birthdays today [item]) book
  /\ forall item,
      AddressBook.get_upcoming_birthdays today [item] = []
      \/ exists e,
          AddressBook.get_upcoming_birthdays today [item] = [e]
          /\ AddressBook.name e = fst item.
Proof.
  split.
  - induction book as [|item book IH]; [reflexivity|].
    rewrite get_upcoming_birthdays_cons, IH. reflexivity.
  - intros [name record].
    destruct (AddressBook.get_upcoming_birthdays today [(name, record)])
      as [|e l] eqn:E; [left; reflexivity|]. right.
    assert (Hin : In e (AddressBook.get_upcoming_birthdays today
                          [(name, record)])) by (rewrite E; left; reflexivity).
    destruct (get_upcoming_birthdays_one today name record e Hin)
      as (E1 & b & bd & _ & _ & He & _).
    rewrite E in E1. exists e. split; [exact E1|]. rewrite He. reflexivity.
Qed.

(** X16: Every entry of the result comes from a contact of the book that has a
    birthday: it bears the key of the contact and the birthday as
    [display_format] shows it, and its number of days is from 0 to 7. *)
Theorem entries_come_from_the_book {libc : CLib} (today : datetime)
        (book : AddressBook.t) (e : AddressBook.entry) :
  In e (AddressBook.get_upcoming_birthdays today book) ->
  0 <= AddressBook.days_until e <= 7
  /\ exists record b,
      In (AddressBook.name e, record) book
      /\ Record.birthday record = Some b
      /\ AddressBook.birthday e = Birthday.display_format b.
Proof.
  induction book as [|[name record] book IH]; [intros []|].
  rewrite get_upcoming_birthdays_cons, in_app_iff. intros [H|H].
  - destruct (get_upcoming_birthdays_one today name record e H)
      as (_ & b & bd & Hb & _ & He & Hd).
    split; [exact Hd|]. exists record, b. rewrite He.
    cbn [AddressBook.name AddressBook.birthday].
    split; [left; reflexivity | auto].
  - destruct (IH H) as (Hd & r & b & Hin & Hb & He).
    split; [exact Hd|]. exists r, b. split; [right; exact Hin | auto].
Qed.

Lemma entries_come_from_the_book_bob :
  In (AddressBook.mk_entry (str "Bob") (str "12.06.2000") 1)
     (AddressBook.get_upcoming_birthdays (libc := glibc)
        (mk_datetime 2024 6 10 10 0 0 0)
        [(str "Ann", contact "Ann" "2000-06-10");
         (str "Bob", contact "Bob" "2000-06-12")])
  /\ 0 <= 1 <= 7
  /\ exists record b,
      In (str "Bob", record)
         [(str "Ann", contact "Ann" "2000-06-10");
          (str "Bob", contact "Bob" "2000-06-12")]
      /\ Record.birthday record = Some b
      /\ str "12.06.2000" = Birthday.display_format (libc := glibc) b.
Proof.
  assert (H : In (AddressBook.mk_entry (str "Bob") (str "12.06.2000") 1)
                 (AddressBook.get_upcoming_birthdays (libc := glibc)
                    (mk_datetime 2024 6 10 10 0 0 0)
                    [(str "Ann", contact "Ann" "2000-06-10");
                     (str "Bob", contact "Bob" "2000-06-12")]))
    by (vm_compute; left; reflexivity).
  split; [exact H|].
  exact (entries_come_from_the_book (libc := glibc) _ _ _ H).
Defined.

(** X17: A contact born on 29 February is left out of every query made in a year
    that is not a leap year: putting the birthday in that year raises. *)
Theorem leap_day_skipped_in_common_year {libc : CLib} (today : datetime)
        (name : pystr) (record : Record.t) (b : Field.t) (birthday : datetime)
        (before after : AddressBook.t) :
  Record.birthday record = Some b ->
  strptime (Field.value b) (str "%Y-%m-%d") = inr birthday ->
  month birthday = 2 -> day birthday = 29 ->
  _is_leap (year today) = false ->
  AddressBook.get_upcoming_birthdays today (before ++ (name, record) :: after)
  = AddressBook.get_upcoming_birthdays today (before ++ after).
Proof.
  intros Hb Hp Hm Hd Hleap.
  unfold AddressBook.get_upcoming_birthdays.
  rewrite !get_upcoming_birthdays_app. cbn [fold_left].
  set (acc := fold_left (AddressBook.loop_body today) before []).
  assert (E : AddressBook.loop_body today acc (name, record) = acc).
  { unfold AddressBook.loop_body. rewrite Hb.
    unfold AddressBook.try_body. rewrite Hp. cbn [bind].
    unfold AddressBook.this_or_next_year, replace. cbn [or_else].
    rewrite Hm, Hd.
    destruct (new_day_overflow (year today) 2 29 (hour birthday)
                (minute birthday) (second birthday) (microsecond birthday))
      as [msg E].
    - unfold _days_in_month. rewrite Hleap. reflexivity.
    - rewrite E. reflexivity. }
  rewrite E. reflexivity.
Qed.

Lemma leap_day_skipped_in_common_year_2023 :
  Record.birthday (contact "Ann" "2000-02-29")
  = Some (Field.mk (str "2000-02-29"))
  /\ strptime (str "2000-02-29") (str "%Y-%m-%d") = inr (midnight 2000 2 29)
  /\ _is_leap 2023 = false
  /\ AddressBook.get_upcoming_birthdays (libc := glibc)
       (mk_datetime 2023 2 27 9 0 0 0)
       ([(str "Bob", contact "Bob" "2000-03-01")]
          ++ (str "Ann", contact "Ann" "2000-02-29") :: [])
     = AddressBook.get_upcoming_birthdays (libc := glibc)
         (mk_datetime 2023 2 27 9 0 0 0)
         ([(str "Bob", contact "Bob" "2000-03-01")] ++ []).
Proof.
  assert (H2 : strptime (str "2000-02-29") (str "%Y-%m-%d")
               = inr (midnight 2000 2 29)) by (vm_compute; reflexivity).
  split; [reflexivity|]. split; [exact H2|]. split; [reflexivity|].
  exact (leap_day_skipped_in_common_year (libc := glibc)
           (mk_datetime 2023 2 27 9 0 0 0) (str "Ann")
           (contact "Ann" "2000-02-29") (Field.mk (str "2000-02-29"))
           (midnight 2000 2 29) [(str "Bob", contact "Bob" "2000-03-01")] []
           eq_refl H2 eq_refl eq_refl eq_refl).
Defined.

(** ** The query and the clock: witnesses and the day of the birthday *)

Lemma get_upcoming_birthdays_same_day_witness :
  same_date (mk_datetime 2024 6 10 10 0 0 0)
            (mk_datetime 2024 6 10 23 59 59 999999)
  /\ valid_time (mk_datetime 2024 6 10 10 0 0 0)
  /\ valid_time (mk_datetime 2024 6 10 23 59 59 999999)
  /\ at_midnight (mk_datetime 2024 6 10 10 0 0 0)
     = at_midnight (mk_datetime 2024 6 10 23 59 59 999999)
  /\ AddressBook.get_upcoming_birthdays (libc := glibc)
       (mk_datetime 2024 6 10 10 0 0 0)
       [(str "Ann", contact "Ann" "2000-06-10");
        (str "Bob", contact "Bob" "2000-06-12")]
     = AddressBook.get_upcoming_birthdays (libc := glibc)
         (mk_datetime 2024 6 10 23 59 59 999999)
         [(str "Ann", contact "Ann" "2000-06-10");
          (str "Bob", contact "Bob" "2000-06-12")].
Proof.
  assert (H1 : same_date (mk_datetime 2024 6 10 10 0 0 0)
                         (mk_datetime 2024 6 10 23 59 59 999999))
    by (repeat split).
  assert (H2 : valid_time (mk_datetime 2024 6 10 10 0 0 0))
    by (unfold valid_time; cbn; lia).
  assert (H3 : valid_time (mk_datetime 2024 6 10 23 59 59 999999))
    by (unfold valid_time; cbn; lia).
  assert (H4 : at_midnight (mk_datetime 2024 6 10 10 0 0 0)
               = at_midnight (mk_datetime 2024 6 10 23 59 59 999999))
    by reflexivity.
  repeat (split; [assumption|]).
  exact (get_upcoming_birthdays_same_day (libc := glibc) _ _ _ H1 H2 H3 H4).
Defined.

Lemma adjust_to_monday_within_month_witness :
  new 2024 6 15 0 0 0 0 = inr (midnight 2024 6 15)
  /\ (weekday (midnight 2024 6 15) = 5 \/ weekday (midnight 2024 6 15) = 6)
  /\ 15 + (7 - weekday (midnight 2024 6 15)) <= _days_in_month 2024 6
  /\ exists nb',
      AddressBook.adjust_to_monday (midnight 2024 6 15) = inr nb'
      /\ toordinal nb'
         = toordinal (midnight 2024 6 15) + (7 - weekday (midnight 2024 6 15))
      /\ weekday nb' = 0.
Proof.
  assert (H1 : new 2024 6 15 0 0 0 0 = inr (midnight 2024 6 15))
    by (vm_compute; reflexivity).
  assert (H2 : weekday (midnight 2024 6 15) = 5
               \/ weekday (midnight 2024 6 15) = 6)
    by (left; vm_compute; reflexivity).
  assert (H3 : 15 + (7 - weekday (midnight 2024 6 15)) <= _days_in_month 2024 6)
    by (vm_compute; discriminate).
  repeat (split; [assumption|]).
  exact (adjust_to_monday_within_month 2024 6 15 0 0 0 0 _ H1 H2 H3).
Defined.

(** X20: When the clock reads 00:00:00 sharp on a working day, a contact whose
    birthday is that day is returned, with zero days. *)
Theorem birthday_today_listed_at_midnight {libc : CLib} (y m d y0 : Z)
        (name : pystr) (record : Record.t) (b : Field.t) :
  valid_date y m d ->
  Record.birthday record = Some b ->
  strptime (Field.value b) (str "%Y-%m-%d") = inr (midnight y0 m d) ->
  weekday (midnight y m d) < 5 ->
  AddressBook.get_upcoming_birthdays (midnight y m d) [(name, record)]
  = [AddressBook.mk_entry name (Birthday.display_format b) 0].
Proof.
  intros Hv Hb Hp Hw. unfold AddressBook.get_upcoming_birthdays.
  cbn [fold_left]. unfold AddressBook.loop_body. rewrite Hb.
  rewrite (birthday_today_at_midnight y m d y0 name record b Hv Hp Hw).
  reflexivity.
Qed.

Lemma birthday_today_listed_at_midnight_ann :
  valid_date 2024 6 10
  /\ Record.birthday (contact "Ann" "2000-06-10")
     = Some (Field.mk (str "2000-06-10"))
  /\ strptime (str "2000-06-10") (str "%Y-%m-%d") = inr (midnight 2000 6 10)
  /\ weekday (midnight 2024 6 10) < 5
  /\ AddressBook.get_upcoming_birthdays (libc := glibc) (midnight 2024 6 10)
       [(str "Ann", contact "Ann" "2000-06-10")]
     = [AddressBook.mk_entry (str "Ann")
          (Birthday.display_format (libc := glibc) (Field.mk (str "2000-06-10")))
          0].
Proof.
  assert (H1 : valid_date 2024 6 10) by (vm_compute; intuition discriminate).
  assert (H3 : strptime (str "2000-06-10") (str "%Y-%m-%d")
               = inr (midnight 2000 6 10)) by (vm_compute; reflexivity).
  assert (H4 : weekday (midnight 2024 6 10) < 5) by (vm_compute; reflexivity).
  split; [exact H1|]. split; [reflexivity|]. split; [exact H3|].
  split; [exact H4|].
  exact (birthday_today_listed_at_midnight (libc := glibc) 2024 6 10 2000
           (str "Ann") (contact "Ann" "2000-06-10")
           (Field.mk (str "2000-06-10")) H1 eq_refl H3 H4).
Defined.

Lemma days_before_year_step (y : Z) :
  _days_before_year (y + 1) - _days_before_year y
  = 365 + (if _is_leap y then 1 else 0).
Proof.
  unfold _days_before_year, _is_leap. cbv zeta.
  replace (y + 1 - 1) with y by lia.
  destruct (Z.eqb_spec (y mod 4) 0) as [H4|H4];
    destruct (Z.eqb_spec (y mod 100) 0) as [H100|H100];
    destruct (Z.eqb_spec (y mod 400) 0) as [H400|H400];
    cbn [andb orb negb];
    Z.to_euclidean_division_equations; lia.
Qed.

Lemma ymd2ord_next_year (y m d d' : Z) :
  d <= d' -> _ymd2ord (y + 1) m d' - _ymd2ord y m d >= 365.
Proof.
  intros Hd. unfold _ymd2ord, _days_before_month.
  pose proof (days_before_year_step y) as Hy.
  destruct (m >? 2); cbn [andb];
    destruct (_is_leap y); destruct (_is_leap (y + 1)); lia.
Qed.

(** X21: When the clock reads any later time of the day, a contact whose birthday
    is that day is not returned at all: the birthday counts as passed and
    its next occurrence is a year away. *)
Theorem birthday_today_dropped_after_midnight {libc : CLib} (today : datetime)
        (y0 : Z) (name : pystr) (record : Record.t) (b : Field.t) :
  valid_date (year today) (month today) (day today) ->
  valid_time today -> at_midnight today = false ->
  Record.birthday record = Some b ->
  strptime (Field.value b) (str "%Y-%m-%d")
  = inr (midnight y0 (month today) (day today)) ->
  AddressBook.get_upcoming_birthdays today [(name, record)] = [].
Proof.
  intros Hv Hvt Hm Hb Hp. unfold AddressBook.get_upcoming_birthdays.
  cbn [fold_left]. unfold AddressBook.loop_body. rewrite Hb.
  unfold AddressBook.try_body. rewrite Hp. cbn [bind].
  rewrite (birthday_today_after_midnight today y0 Hv Hvt Hm).
  destruct (new (year today + 1) (month today) (day today) 0 0 0 0)
    as [[msg]|nb] eqn:En; cbn [bind]; [reflexivity|].
  apply new_inr in En. destruct En as (_ & _ & _ & _ & _ & ->).
  assert (Hfar : forall d', day today <= d' ->
            (0 <=? days (sub (midnight (year today + 1) (month today) d') today))
            && (days (sub (midnight (year today + 1) (month today) d') today)
                <=? 7) = false).
  { intros d' Hd'. rewrite days_sub_midnight, Hm by assumption.
    pose proof (ymd2ord_next_year (year today) (month today) (day today) d' Hd').
    unfold toordinal. apply andb_false_iff. right. apply Z.leb_gt. lia. }
  unfold AddressBook.adjust_to_monday.
  destruct (existsb _ _) eqn:Ew.
  - unfold replace.
    cbn [or_else year month day hour minute second microsecond].
    match goal with
    | |- context [new ?y ?m ?d' 0 0 0 0] =>
        destruct (new y m d' 0 0 0 0) as [[msg]|nb'] eqn:En';
        cbn [bind]; [reflexivity|];
        apply new_inr in En'; destruct En' as (_ & _ & _ & _ & _ & ->);
        change (mk_datetime y m d' 0 0 0 0) with (midnight y m d');
        rewrite (Hfar d')
    end; [reflexivity|].
    cbn [existsb] in Ew. apply orb_true_iff in Ew.
    destruct Ew as [Ew|Ew]; [|apply orb_true_iff in Ew; destruct Ew as [Ew|Ew];
                               [|discriminate]];
      apply Z.eqb_eq in Ew; rewrite Ew; lia.
  - cbn [bind ret].
    change (mk_datetime (year today + 1) (month today) (day today) 0 0 0 0)
      with (midnight (year today + 1) (month today) (day today)).
    rewrite (Hfar (day today)) by lia. reflexivity.
Qed.

Lemma birthday_today_dropped_after_midnight_ann :
  valid_date 2024 6 10
  /\ valid_time (mk_datetime 2024 6 10 0 0 0 1)
  /\ at_midnight (mk_datetime 2024 6 10 0 0 0 1) = false
  /\ Record.birthday (contact "Ann" "2000-06-10")
     = Some (Field.mk (str "2000-06-10"))
  /\ strptime (str "2000-06-10") (str "%Y-%m-%d") = inr (midnight 2000 6 10)
  /\ AddressBook.get_upcoming_birthdays (libc := glibc)
       (mk_datetime 2024 6 10 0 0 0 1)
       [(str "Ann", contact "Ann" "2000-06-10")] = [].
Proof.
  assert (H1 : valid_date 2024 6 10) by (vm_compute; intuition discriminate).
  assert (H2 : valid_time (mk_datetime 2024 6 10 0 0 0 1))
    by (unfold valid_time; cbn; lia).
  assert (H5 : strptime (str "2000-06-10") (str "%Y-%m-%d")
               = inr (midnight 2000 6 10)) by (vm_compute; reflexivity).
  split; [exact H1|]. split; [exact H2|]. split; [reflexivity|].
  split; [reflexivity|]. split; [exact H5|].
  exact (birthday_today_dropped_after_midnight (libc := glibc)
           (mk_datetime 2024 6 10 0 0 0 1) 2000 (str "Ann")
           (contact "Ann" "2000-06-10") (Field.mk (str "2000-06-10"))
           H1 H2 eq_refl eq_refl H5).
Defined.

(** ** [main.py]: the words of a command line *)

Lemma split_from_words (cur s : pystr) :
  forallb (fun c => negb (PyStr.isspace_char c)) cur = true ->
  Forall word (PyBuiltins.split_from cur s).
Proof.
  revert cur. induction s as [|c s IH]; intros cur Hcur; simpl.
  - destruct cur as [|a cur]; [constructor|].
    constructor; [|constructor]. split.
    + intros H. apply (f_equal (@List.length char)) in H.
      rewrite length_rev in H. discriminate.
    + apply forallb_rev. exact Hcur.
  - destruct (PyStr.isspace_char c) eqn:Ec.
    + destruct cur as [|a cur]; [apply IH; reflexivity|].
      constructor; [|apply IH; reflexivity]. split.
      * intros H. apply (f_equal (@List.length char)) in H.
        rewrite length_rev in H. discriminate.
      * apply forallb_rev. exact Hcur.
    + apply IH. simpl. rewrite Ec, Hcur. reflexivity.
Qed.

Lemma split_from_nil (cur s : pystr) :
  PyBuiltins.split_from cur s = [] <->
  cur = [] /\ forallb PyStr.isspace_char s = true.
Proof.
  revert cur. induction s as [|c s IH]; intros cur; simpl.
  - destruct cur; split; try discriminate; auto.
    intros [H _]. discriminate.
  - destruct (PyStr.isspace_char c) eqn:Ec; simpl.
    + destruct cur as [|a cur]; [apply IH|].
      split; [discriminate | intros [H _]; discriminate].
    + rewrite IH. split; intros [H1 H2]; discriminate.
Qed.

Lemma word_stripped (w : pystr) : word w -> stripped w.
Proof.
  intros [_ Hw]. unfold stripped, PyStr.strip, PyStr.rstrip_by, PyStr.lstrip_by.
  assert (Hd : forall l, forallb (fun c => negb (PyStr.isspace_char c)) l = true ->
                         PyStr.dropwhile PyStr.isspace_char l = l).
  { intros l Hl. apply dropwhile_fixed. destruct l as [|c l]; [exact I|].
    simpl in Hl. apply andb_true_iff in Hl. destruct Hl as [Hc _].
    apply negb_true_iff. exact Hc. }
  rewrite (Hd w Hw), Hd, rev_involutive; [reflexivity|].
  apply forallb_rev. exact Hw.
Qed.

(** X22: [parse_input] raises, and [main] does not catch it, exactly when the line
    is empty or blank.  Otherwise the arguments are words, not empty and
    without whitespace, so that a name given as argument is stored by
    [Name] as it was typed. *)
Theorem parse_input_words (lower : pystr -> pystr) (user_input : pystr) :
  ((exists msg, Main.parse_input lower user_input = inl (ValueError msg))
   <-> forallb PyStr.isspace_char user_input = true)
  /\ forall cmd args,
      Main.parse_input lower user_input = inr (cmd, args) ->
      Forall word args
      /\ forall name, In name args -> Name.__init__ name = inr (Field.mk name).
Proof.
  unfold Main.parse_input, PyBuiltins.split.
  pose proof (split_from_words [] user_input eq_refl) as Hw.
  pose proof (split_from_nil [] user_input) as Hn.
  destruct (PyBuiltins.split_from [] user_input) as [|cmd0 args0].
  - split.
    + split; [intros _; apply Hn; reflexivity | intros _; eexists; reflexivity].
    + discriminate.
  - split.
    + split; [intros [msg H]; discriminate|].
      intros H. assert (E : cmd0 :: args0 = []) by (apply Hn; auto).
      discriminate.
    + intros cmd args [= _ <-]. inversion_clear Hw as [|? ? _ Hargs].
      split; [exact Hargs|]. intros name Hin.
      rewrite Forall_forall in Hargs. specialize (Hargs name Hin).
      unfold Name.__init__. cbv zeta.
      rewrite (word_stripped name Hargs).
      destruct name; [destruct Hargs as [H _]; contradiction | reflexivity].
Qed.

(** ** [main.py]: the handlers that change the book *)

Lemma Phone_init_nonempty (phone : pystr) (p : Field.t) :
  Phone.__init__ phone = inr p -> phone <> [].
Proof. intros H ->. vm_compute in H. discriminate. Qed.

Lemma find_key_name (k : pystr) (r : Record.t) (book : AddressBook.t) :
  well_formed book -> AddressBook.find k book = Some r ->
  k = Field.value (Record.name r).
Proof.
  intros [_ Hall]. induction book as [|[k0 w0] book IH]; simpl; [discriminate|].
  inversion_clear Hall as [|? ? H0 Hrest].
  destruct (PyStr.eqb k0 k) eqn:E; [|apply IH; exact Hrest].
  intros [= <-]. apply pystr_eqb_eq in E. subst k0. exact H0.
Qed.

(** X23: [add_contact] with a phone that [Phone] accepts: the phone is appended
    to the record found under the name, or to a record made for the name and
    added to the book; [show_phone] then lists it, last. *)
Theorem add_contact_adds_phone (name phone : pystr) (rest : list pystr)
        (book : AddressBook.t) (p : Field.t) :
  Phone.__init__ phone = inr p ->
  (forall record,
      AddressBook.find name book = Some record ->
      let book' :=
        AddressBook.setitem name
          (Record.mk (Record.name record) (Record.phones record ++ [p])
                     (Record.birthday record)) book in
      Main.add_contact (name :: phone :: rest) book
      = (str "Contact updated.", book')
      /\ Main.show_phone [name] book'
         = str "Phone numbers for " ++ name ++ str ": "
             ++ Record.join (str "; ")
                  (map Field.value (Record.phones record ++ [p])))
  /\ (forall n,
         AddressBook.find name book = None ->
         Name.__init__ name = inr n ->
         let book' := AddressBook.add_record (Record.mk n [p] None) book in
         Main.add_contact (name :: phone :: rest) book
         = (str "Contact added.", book')
         /\ Main.show_phone [Field.value n] book'
            = str "Phone numbers for " ++ Field.value n ++ str ": "
                ++ Field.value p).
Proof.
  intros Hp. pose proof (Phone_init_nonempty phone p Hp) as Hne. split.
  - intros record Hf book'. split.
    + unfold Main.add_contact, Main.add_contact_body, Main.call_on.
      rewrite Hf. destruct phone as [|c phone']; [contradiction|].
      unfold Record.add_phone. rewrite Hp. reflexivity.
    + unfold Main.show_phone, book'. rewrite find_setitem_same.
      cbn [Record.phones].
      destruct (Record.phones record ++ [p]) as [|q l] eqn:E; [|reflexivity].
      apply app_eq_nil in E. destruct E as [_ E]. discriminate.
  - intros n Hf Hn book'. split.
    + unfold Main.add_contact, Main.add_contact_body, Main.call_on.
      rewrite Hf. unfold Record.__init__. rewrite Hn.
      cbn [bind ret]. destruct phone as [|c phone']; [contradiction|].
      unfold Record.add_phone. rewrite Hp. cbn [Record.name Record.phones
        Record.birthday app Main.input_error].
      unfold book', AddressBook.add_record. cbn [Record.name].
      rewrite setitem_setitem. reflexivity.
    + unfold Main.show_phone, book', AddressBook.add_record.
      cbn [Record.name]. rewrite find_setitem_same. reflexivity.
Qed.

Lemma add_contact_adds_phone_bob :
  Phone.__init__ (str "1112223333") = inr (Field.mk (str "1112223333"))
  /\ AddressBook.find (str "Bob") [] = None
  /\ Name.__init__ (str "Bob") = inr (Field.mk (str "Bob"))
  /\ Main.add_contact [str "Bob"; str "1112223333"] []
     = (str "Contact added.",
        AddressBook.add_record
          (Record.mk (Field.mk (str "Bob")) [Field.mk (str "1112223333")] None)
          [])
  /\ Main.show_phone [str "Bob"]
       (AddressBook.add_record
          (Record.mk (Field.mk (str "Bob")) [Field.mk (str "1112223333")] None)
          [])
     = str "Phone numbers for " ++ str "Bob" ++ str ": " ++ str "1112223333".
Proof.
  assert (H1 : Phone.__init__ (str "1112223333")
               = inr (Field.mk (str "1112223333"))) by (vm_compute; reflexivity).
  assert (H3 : Name.__init__ (str "Bob") = inr (Field.mk (str "Bob")))
    by (vm_compute; reflexivity).
  split; [exact H1|]. split; [reflexivity|]. split; [exact H3|].
  exact (proj2 (add_contact_adds_phone (str "Bob") (str "1112223333") [] []
                  _ H1) _ eq_refl H3).
Defined.

(** X24: [add_contact] for a new name with a phone that [Phone] rejects: the
    answer is the error, and the book has the new contact all the same, with
    no phone, because the record is added before the phone is checked. *)
Theorem add_contact_bad_phone_adds_contact (name phone : pystr)
        (rest : list pystr) (book : AddressBook.t) (n : Field.t)
        (msg : pystr) :
  AddressBook.find name book = None ->
  Name.__init__ name = inr n ->
  phone <> [] ->
  Phone.__init__ phone = inl (ValueError msg) ->
  Main.add_contact (name :: phone :: rest) book
  = (str "ValueError: " ++ msg,
     AddressBook.add_record (Record.mk n [] None) book).
Proof.
  intros Hf Hn Hne Hp.
  unfold Main.add_contact, Main.add_contact_body, Main.call_on.
  rewrite Hf. unfold Record.__init__. rewrite Hn. cbn [bind ret].
  destruct phone as [|c phone']; [contradiction|].
  unfold Record.add_phone. rewrite Hp. cbn [Main.input_error Record.name].
  unfold AddressBook.add_record. cbn [Record.name].
  rewrite setitem_setitem. reflexivity.
Qed.

Lemma add_contact_bad_phone_adds_contact_bob :
  AddressBook.find (str "Bob") [] = None
  /\ Name.__init__ (str "Bob") = inr (Field.mk (str "Bob"))
  /\ str "123" <> []
  /\ Phone.__init__ (str "123")
     = inl (ValueError (str "Phone number must contain exactly 10 digits."))
  /\ Main.add_contact [str "Bob"; str "123"] []
     = (str "ValueError: " ++ str "Phone number must contain exactly 10 digits.",
        AddressBook.add_record (Record.mk (Field.mk (str "Bob")) [] None) []).
Proof.
  assert (H2 : Name.__init__ (str "Bob") = inr (Field.mk (str "Bob")))
    by (vm_compute; reflexivity).
  assert (H3 : str "123" <> []) by discriminate.
  assert (H4 : Phone.__init__ (str "123")
               = inl (ValueError
                        (str "Phone number must contain exactly 10 digits.")))
    by (vm_compute; reflexivity).
  split; [reflexivity|]. split; [exact H2|]. split; [exact H3|].
  split; [exact H4|].
  exact (add_contact_bad_phone_adds_contact (str "Bob") (str "123") [] []
           _ _ eq_refl H2 H3 H4).
Defined.

(** X25: When [change_contact] or [add_birthday] answers with an error, whatever
    the reason (too few arguments, no such contact, no such phone, a date
    that does not parse), the book is as it was. *)
Theorem failed_command_leaves_book {libc : CLib} (args : list pystr)
        (book book' : AddressBook.t) (msg : pystr) :
  (Main.change_contact_body args book = (inl (ValueError msg), book') ->
   book' = book
   /\ Main.change_contact args book = (str "ValueError: " ++ msg, book))
  /\ (Main.add_birthday_body args book = (inl (ValueError msg), book') ->
      book' = book
      /\ Main.add_birthday args book = (str "ValueError: " ++ msg, book)).
Proof.
  split.
  - unfold Main.change_contact. intros H. rewrite H.
    cut (book' = book); [intros ->; auto|].
    unfold Main.change_contact_body, Main.call_on in H.
    destruct args as [|name [|old_phone [|new_phone rest]]];
      try (injection H as _ <-; reflexivity).
    destruct (AddressBook.find name book) as [record|] eqn:Ef;
      [|injection H as _ <-; reflexivity].
    unfold Record.edit_phone in H.
    destruct (Record.find_phone old_phone record); [discriminate|].
    injection H as _ <-. apply setitem_same. exact Ef.
  - unfold Main.add_birthday. intros H. rewrite H.
    cut (book' = book); [intros ->; auto|].
    unfold Main.add_birthday_body, Main.call_on in H.
    destruct args as [|name [|birthday rest]];
      try (injection H as _ <-; reflexivity).
    destruct (AddressBook.find name book) as [record|] eqn:Ef;
      [|injection H as _ <-; reflexivity].
    unfold Record.add_birthday in H.
    destruct (Birthday.__init__ birthday); [|discriminate].
    injection H as _ <-. apply setitem_same. exact Ef.
Qed.

Lemma names_kept {libc : CLib} (record : Record.t) :
  (forall phone,
      Record.name (snd (Record.add_phone phone record)) = Record.name record)
  /\ (forall old_phone new_phone,
         Record.name (snd (Record.edit_phone old_phone new_phone record))
         = Record.name record)
  /\ (forall birthday,
         Record.name (snd (Record.add_birthday birthday record))
         = Record.name record).
Proof.
  repeat split.
  - intros phone. unfold Record.add_phone.
    destruct (Phone.__init__ phone); reflexivity.
  - intros old_phone new_phone. unfold Record.edit_phone.
    destruct (Record.find_phone old_phone record); reflexivity.
  - intros birthday. unfold Record.add_birthday.
    destruct (Birthday.__init__ birthday); reflexivity.
Qed.

Lemma call_on_well_formed {A : Type} (key : pystr) (record : Record.t)
      (method : Record.t -> result A * Record.t) (book : AddressBook.t) :
  Record.name (snd (method record)) = Record.name record ->
  key = Field.value (Record.name record) ->
  well_formed book ->
  well_formed (snd (Main.call_on key record method book)).
Proof.
  intros Hn Hk Hwf. unfold Main.call_on.
  destruct (method record) as [res record']. cbn [snd] in *.
  apply well_formed_setitem; [congruence | exact Hwf].
Qed.

(** X26: The handlers that change the book keep it a dictionary in which every
    record is under the key that is its name. *)
Theorem handlers_keep_book_well_formed {libc : CLib} (args : list pystr)
        (book : AddressBook.t) :
  well_formed book ->
  well_formed (snd (Main.add_contact args book))
  /\ well_formed (snd (Main.change_contact args book))
  /\ well_formed (snd (Main.add_birthday args book)).
Proof.
  intros Hwf.
  assert (Hie : forall r : result pystr * AddressBook.t,
             snd (Main.input_error r) = snd r).
  { intros [[[m]|m] b]; reflexivity. }
  unfold Main.add_contact, Main.change_contact, Main.add_birthday.
  rewrite !Hie. split; [|split].
  - unfold Main.add_contact_body.
    destruct args as [|name [|phone rest]]; try exact Hwf.
    destruct (AddressBook.find name book) as [record|] eqn:Ef.
    + destruct phone as [|c phone']; [exact Hwf|].
      pose proof (call_on_well_formed name record
                    (Record.add_phone (c :: phone')) book
                    (proj1 (names_kept (libc := libc) record) _)
                    (find_key_name _ _ _ Hwf Ef) Hwf) as H.
      destruct (Main.call_on name record _ book) as [[e|u] b]; exact H.
    + destruct (Record.__init__ name) as [e|record]; [exact Hwf|].
      assert (Hwf1 : well_formed (AddressBook.add_record record book))
        by (apply well_formed_setitem; [reflexivity | exact Hwf]).
      cbv zeta. destruct phone as [|c phone']; [exact Hwf1|].
      pose proof (call_on_well_formed (Field.value (Record.name record)) record
                    (Record.add_phone (c :: phone'))
                    (AddressBook.add_record record book)
                    (proj1 (names_kept (libc := libc) record) _)
                    eq_refl Hwf1) as H.
      destruct (Main.call_on _ record _ _) as [[e|u] b]; exact H.
  - unfold Main.change_contact_body.
    destruct args as [|name [|old_phone [|new_phone rest]]]; try exact Hwf.
    destruct (AddressBook.find name book) as [record|] eqn:Ef; [|exact Hwf].
    pose proof (call_on_well_formed name record
                  (Record.edit_phone old_phone new_phone) book
                  (proj1 (proj2 (names_kept (libc := libc) record)) _ _)
                  (find_key_name _ _ _ Hwf Ef) Hwf) as H.
    destruct (Main.call_on name record _ book) as [[e|u] b]; exact H.
  - unfold Main.add_birthday_body.
    destruct args as [|name [|birthday rest]]; try exact Hwf.
    destruct (AddressBook.find name book) as [record|] eqn:Ef; [|exact Hwf].
    pose proof (call_on_well_formed name record
                  (Record.add_birthday birthday) book
                  (proj2 (proj2 (names_kept record)) _)
                  (find_key_name _ _ _ Hwf Ef) Hwf) as H.
    destruct (Main.call_on name record _ book) as [[e|u] b]; exact H.
Qed.

Lemma handlers_keep_book_well_formed_bob :
  well_formed []
  /\ well_formed (snd (Main.add_contact [str "Bob"; str "123"] []))
  /\ well_formed (snd (Main.change_contact [str "Bob"; str "1"; str "2"] []))
  /\ well_formed
       (snd (Main.add_birthday (libc := glibc) [str "Bob"; str "1.2.1990"] [])).
Proof.
  split; [exact well_formed_nil|].
  pose proof (handlers_keep_book_well_formed (libc := glibc)
                [str "Bob"; str "123"] [] well_formed_nil) as (H1 & _ & _).
  pose proof (handlers_keep_book_well_formed (libc := glibc)
                [str "Bob"; str "1"; str "2"] [] well_formed_nil) as (_ & H2 & _).
  pose proof (handlers_keep_book_well_formed (libc := glibc)
                [str "Bob"; str "1.2.1990"] [] well_formed_nil) as (_ & _ & H3).
  auto.
Defined.

(** ** [main.py]: what is shown *)

(** X27: After [add_birthday] has accepted a date, in whatever form it was typed,
    the record found under the name has the birthday, its name and phones
    are as before, and [show_birthday] answers with the date as DD.MM.YYYY. *)
Theorem add_birthday_then_show {libc : CLib} (name raw : pystr)
        (rest : list pystr) (book : AddressBook.t) (record : Record.t)
        (b : Field.t) :
  AddressBook.find name book = Some record ->
  Birthday.__init__ raw = inr b ->
  exists book',
    Main.add_birthday (name :: raw :: rest) book
    = (str "Birthday " ++ raw ++ str " added for contact " ++ name ++ str ".",
       book')
    /\ AddressBook.find name book'
       = Some (Record.mk (Record.name record) (Record.phones record) (Some b))
    /\ exists y m d,
        valid_date y m d
        /\ Field.value b = iso_form y m d
        /\ Main.show_birthday [name] book'
           = str "Birthday for " ++ name ++ str ": " ++ display_form y m d.
Proof.
  intros Hf Hb.
  exists (AddressBook.setitem name
            (Record.mk (Record.name record) (Record.phones record) (Some b))
            book).
  split; [|split].
  - unfold Main.add_birthday, Main.add_birthday_body, Main.call_on.
    rewrite Hf. unfold Record.add_birthday. rewrite Hb. reflexivity.
  - apply find_setitem_same.
  - destruct (display_format_of_constructed raw b Hb)
      as (y & m & d & Hv & Eb & Hd).
    exists y, m, d. split; [exact Hv|]. split; [exact Eb|].
    unfold Main.show_birthday. rewrite find_setitem_same.
    cbn [Record.birthday]. rewrite Hd. reflexivity.
Qed.

Lemma add_birthday_then_show_john :
  AddressBook.find (str "John") [(str "John", john_1990)] = Some john_1990
  /\ Birthday.__init__ (libc := glibc) (str "20/12/1985")
     = inr (Field.mk (str "1985-12-20"))
  /\ exists book',
      Main.add_birthday (libc := glibc) [str "John"; str "20/12/1985"]
                        [(str "John", john_1990)]
      = (str "Birthday " ++ str "20/12/1985" ++ str " added for contact "
             ++ str "John" ++ str ".", book')
      /\ AddressBook.find (str "John") book'
         = Some (Record.mk (Record.name john_1990) (Record.phones john_1990)
                           (Some (Field.mk (str "1985-12-20"))))
      /\ exists y m d,
          valid_date y m d
          /\ Field.value (Field.mk (str "1985-12-20")) = iso_form y m d
          /\ Main.show_birthday (libc := glibc) [str "John"] book'
             = str "Birthday for " ++ str "John" ++ str ": "
                   ++ display_form y m d.
Proof.
  assert (H1 : AddressBook.find (str "John") [(str "John", john_1990)]
               = Some john_1990) by (vm_compute; reflexivity).
  assert (H2 : Birthday.__init__ (libc := glibc) (str "20/12/1985")
               = inr (Field.mk (str "1985-12-20"))) by (vm_compute; reflexivity).
  split; [exact H1|]. split; [exact H2|].
  exact (add_birthday_then_show (libc := glibc) (str "John") (str "20/12/1985")
           [] _ _ _ H1 H2).
Defined.

Lemma strptime_Ymd_needs_four_digits (s rest : pystr) (c : char) :
  (List.length s <= 3)%nat -> PyStr.isdecimal_char c = false ->
  exists msg,
    strptime (s ++ c :: rest) (str "%Y-%m-%d") = inl (ValueError msg).
Proof.
  intros Hs Hc. unfold strptime. rewrite parse_format_Ymd. unfold items_Ymd.
  assert (E : match_seq [PyStr.isdecimal_char; PyStr.isdecimal_char;
                         PyStr.isdecimal_char; PyStr.isdecimal_char]
                        (s ++ c :: rest) = None).
  { destruct s as [|a1 [|a2 [|a3 [|a4 s]]]]; [| | | |simpl in Hs; lia];
      cbn [app match_seq]; rewrite ?Hc;
      repeat match goal with
        | |- context [PyStr.isdecimal_char ?x] =>
            is_var x; destruct (PyStr.isdecimal_char x) eqn:?;
            try reflexivity; try congruence
        end; reflexivity. }
  cbn [re_match regex_of match_alts]. rewrite E. cbn [first_some].
  eexists. reflexivity.
Qed.

Lemma small_int_digit (n : Z) :
  0 <= n <= 9 -> PyBuiltins.str_of_int n = [digit n].
Proof. intros Hn. split_range n 0 9; reflexivity. Qed.

(** X28: For every entry of the query, [show_birthdays] fails to read the date as
    YYYY-MM-DD, since the entry holds it as DD.MM.YYYY already, and falls
    back on the text of the entry: the line shows the date as the query
    returned it, and the number of days as one digit. *)
Theorem show_birthdays_line {libc : CLib} (today : datetime)
        (book : AddressBook.t) (e : AddressBook.entry) :
  In e (AddressBook.get_upcoming_birthdays today book) ->
  Main.display_date e = AddressBook.birthday e
  /\ Main.birthday_line e
     = [Main.bullet; ch " "] ++ AddressBook.name e ++ str ": "
         ++ AddressBook.birthday e ++ str " (in "
         ++ [digit (AddressBook.days_until e)] ++ str " days)" ++ [10].
Proof.
  intros Hin.
  assert (Hd : 0 <= AddressBook.days_until e <= 7
               /\ Main.display_date e = AddressBook.birthday e).
  { induction book as [|[name record] book IH]; [destruct Hin|].
    rewrite get_upcoming_birthdays_cons, in_app_iff in Hin.
    destruct Hin as [H|H]; [|apply IH; exact H].
    destruct (get_upcoming_birthdays_one today name record e H)
      as (_ & b & bd & _ & Hp & He & Hdays).
    split; [exact Hdays|]. rewrite He.
    unfold Main.display_date. cbn [AddressBook.birthday].
    unfold Birthday.display_format. rewrite Hp, strftime_dmY.
    destruct (strptime_Ymd_needs_four_digits (dec2 (day bd))
                (dec2 (month bd) ++ ch "."
                   :: (if strftime_pads_year then dec4 (year bd)
                       else dec (year bd)))
                (ch ".")) as [msg E]; [simpl; lia | reflexivity|].
    rewrite E. reflexivity. }
  destruct Hd as [Hdays Hd]. split; [exact Hd|].
  unfold Main.birthday_line. rewrite Hd, small_int_digit by lia. reflexivity.
Qed.

Lemma show_birthdays_line_bob :
  In (AddressBook.mk_entry (str "Bob") (str "12.06.2000") 1)
     (AddressBook.get_upcoming_birthdays (libc := glibc)
        (mk_datetime 2024 6 10 10 0 0 0)
        [(str "Bob", contact "Bob" "2000-06-12")])
  /\ Main.display_date (libc := glibc)
       (AddressBook.mk_entry (str "Bob") (str "12.06.2000") 1)
     = str "12.06.2000"
  /\ Main.birthday_line (libc := glibc)
       (AddressBook.mk_entry (str "Bob") (str "12.06.2000") 1)
     = [Main.bullet; ch " "] ++ str "Bob" ++ str ": " ++ str "12.06.2000"
         ++ str " (in " ++ [digit 1] ++ str " days)" ++ [10].
Proof.
  assert (H : In (AddressBook.mk_entry (str "Bob") (str "12.06.2000") 1)
                 (AddressBook.get_upcoming_birthdays (libc := glibc)
                    (mk_datetime 2024 6 10 10 0 0 0)
                    [(str "Bob", contact "Bob" "2000-06-12")]))
    by (vm_compute; left; reflexivity).
  split; [exact H|].
  exact (show_birthdays_line (libc := glibc) _ _ _ H).
Defined.

(** X29: The text of a record to which [add_birthday] has just given a
    birthday: the name, the phones joined by "; ", and, as DD.MM.YYYY, the
    date that the constructor parsed and the record now stores as
    YYYY-MM-DD. *)
Theorem str_after_add_birthday {libc : CLib} (raw : pystr)
        (self self' : Record.t) :
  Record.add_birthday raw self = (inr tt, self') ->
  exists b y m d,
    Birthday.__init__ raw = inr b
    /\ Record.birthday self' = Some b
    /\ valid_date y m d
    /\ Field.value b = iso_form y m d
    /\ Record.__str__ self'
       = str "Contact name: " ++ Field.value (Record.name self)
           ++ str ", phones: "
           ++ Record.join (str "; ") (map Field.value (Record.phones self))
           ++ str ", birthday: " ++ display_form y m d.
Proof.
  unfold Record.add_birthday.
  destruct (Birthday.__init__ raw) as [e|b] eqn:E; [discriminate|].
  intros [= <-].
  destruct (display_format_of_constructed raw b E)
    as (y & m & d & Hv & Eb & Hd).
  exists b, y, m, d. split; [reflexivity|]. split; [reflexivity|].
  split; [exact Hv|]. split; [exact Eb|].
  unfold Record.__str__. cbn [Record.name Record.phones Record.birthday].
  rewrite Hd. reflexivity.
Qed.

Lemma str_after_add_birthday_john :
  Record.add_birthday (libc := glibc) (str "20/12/1985") john_1990
  = (inr tt,
     Record.mk (Record.name john_1990) (Record.phones john_1990)
               (Some (Field.mk (str "1985-12-20"))))
  /\ Record.__str__ (libc := glibc)
       (Record.mk (Record.name john_1990) (Record.phones john_1990)
                  (Some (Field.mk (str "1985-12-20"))))
     = str "Contact name: John, phones: 1234567890; 5555555555, birthday: 20.12.1985"
  /\ exists b y m d,
      Birthday.__init__ (libc := glibc) (str "20/12/1985") = inr b
      /\ Record.birthday
           (Record.mk (Record.name john_1990) (Record.phones john_1990)
                      (Some (Field.mk (str "1985-12-20")))) = Some b
      /\ valid_date y m d
      /\ Field.value b = iso_form y m d
      /\ Record.__str__ (libc := glibc)
           (Record.mk (Record.name john_1990) (Record.phones john_1990)
                      (Some (Field.mk (str "1985-12-20"))))
         = str "Contact name: " ++ Field.value (Record.name john_1990)
             ++ str ", phones: "
             ++ Record.join (str "; ")
                            (map Field.value (Record.phones john_1990))
             ++ str ", birthday: " ++ display_form y m d.
Proof.
  assert (H : Record.add_birthday (libc := glibc) (str "20/12/1985") john_1990
              = (inr tt,
                 Record.mk (Record.name john_1990) (Record.phones john_1990)
                           (Some (Field.mk (str "1985-12-20")))))
    by (vm_compute; reflexivity).
  split; [exact H|]. split; [vm_compute; reflexivity|].
  exact (str_after_add_birthday (libc := glibc) _ _ _ H).
Defined.
